(** * Embedding server: dispatcher, model registry and session loop

    A shallow embedding of [src/rag/python-scripts/embedding_server.py].

    Python values that travel through the server (decoded JSON requests,
    response dictionaries, the nested lists returned by the model) are
    values of [pyval].  The class [EmbeddingServer] becomes a record with
    its two attributes, and every method becomes a computation in a small
    monad [M] that threads the server object and the outside world, may
    raise a Python exception, and records what it does on the standard
    streams and which external calls it makes.

    What lies outside the repository is taken from a [Runtime]: the
    [sentence_transformers] library (constructor and [encode]), the
    interpreter's [json.loads], [str] on non-string values and
    [traceback.format_exc].  A Python string is a [string] whose
    characters are code points below 256.  Asynchronous interruption
    ([KeyboardInterrupt]) is not modelled: every exception of the model
    is an instance of Python's [Exception]. *)

From Stdlib Require Import ZArith List String Ascii Bool Lia.
From Stdlib Require Import Floats.SpecFloat.
Import ListNotations.

Set Warnings "-register-all".

Local Open Scope string_scope.
Local Open Scope list_scope.

(** ** Python values *)

(** The values [json.loads] produces, which are also the values the server
    builds.  A [dict] keeps its insertion order, as Python's does; keys
    are strings. *)
Inductive pyval : Type :=
| PNone
| PBool (b : bool)
| PInt (z : Z)
| PFloat (f : spec_float)
| PStr (s : string)
| PList (l : list pyval)
| PDict (d : list (string * pyval)).

(** Exception classes the server raises or names; anything else a
    collaborator raises is an [OtherException]. *)
Inductive exn_class : Type :=
| AttributeError
| IndexError
| KeyError
| TypeError
| ValueError
| RuntimeError
| JSONDecodeError
| OtherException (name : string).

(** An exception instance: its class and [str(e)]. *)
Record exn : Type := Exn { exn_cls : exn_class; exn_str : string }.

Inductive result (A : Type) : Type :=
| Ok (a : A)
| Raise (e : exn).

Arguments Ok {A} a.
Arguments Raise {A} e.

Definition is_JSONDecodeError (e : exn) : bool :=
  match exn_cls e with
  | JSONDecodeError => true
  | _ => false
  end.

(** [type(v).__name__] *)
Definition type_name (v : pyval) : string :=
  match v with
  | PNone => "NoneType"
  | PBool _ => "bool"
  | PInt _ => "int"
  | PFloat _ => "float"
  | PStr _ => "str"
  | PList _ => "list"
  | PDict _ => "dict"
  end.

(** [bool(v)]: what [if v] and [not v] test. *)
Definition py_truthy (v : pyval) : bool :=
  match v with
  | PNone => false
  | PBool b => b
  | PInt z => negb (Z.eqb z 0)
  | PFloat f => negb (SFeqb f (S754_zero false))
  | PStr s => negb (String.eqb s "")
  | PList l => match l with [] => false | _ :: _ => true end
  | PDict d => match d with [] => false | _ :: _ => true end
  end.

(** Lookup in a [dict]. *)
Fixpoint dict_lookup (k : string) (d : list (string * pyval)) : option pyval :=
  match d with
  | [] => None
  | (k', v) :: d' => if String.eqb k k' then Some v else dict_lookup k d'
  end.

(** [d.get(k, default)] on a [dict]. *)
Definition dict_get (d : list (string * pyval)) (k : string) (default : pyval) : pyval :=
  match dict_lookup k d with
  | Some v => v
  | None => default
  end.

(** The value a response holds under a key, if any. *)
Definition py_field (k : string) (v : pyval) : option pyval :=
  match v with
  | PDict d => dict_lookup k d
  | _ => None
  end.

(** [request.get("id", "unknown")] on a [dict]. *)
Definition id_of (d : list (string * pyval)) : pyval :=
  dict_get d "id" (PStr "unknown").

(** [request.get("action", "unknown")] on a [dict]. *)
Definition action_of (d : list (string * pyval)) : pyval :=
  dict_get d "action" (PStr "unknown").

(** [request.get("texts", [])] on a [dict]. *)
Definition texts_of (d : list (string * pyval)) : pyval :=
  dict_get d "texts" (PList []).

(** [request.get("model", "all-MiniLM-L6-v2")] on a [dict]. *)
Definition model_of (d : list (string * pyval)) : pyval :=
  dict_get d "model" (PStr "all-MiniLM-L6-v2").

(** [obj.get(k, default)] on any value: only a [dict] has the method. *)
Definition py_get (obj : pyval) (k : string) (default : pyval) : result pyval :=
  match obj with
  | PDict d => Ok (dict_get d k default)
  | _ => Raise (Exn AttributeError
                  ("'" ++ type_name obj ++ "' object has no attribute 'get'"))
  end.

(** [len(v)] *)
Definition py_len (v : pyval) : result pyval :=
  match v with
  | PStr s => Ok (PInt (Z.of_nat (String.length s)))
  | PList l => Ok (PInt (Z.of_nat (List.length l)))
  | PDict d => Ok (PInt (Z.of_nat (List.length d)))
  | _ => Raise (Exn TypeError
                  ("object of type '" ++ type_name v ++ "' has no len()"))
  end.

(** [v[0]] *)
Definition py_getitem0 (v : pyval) : result pyval :=
  match v with
  | PList (x :: _) => Ok x
  | PList [] => Raise (Exn IndexError "list index out of range")
  | PStr (String c _) => Ok (PStr (String c ""))
  | PStr EmptyString => Raise (Exn IndexError "string index out of range")
  | PDict _ => Raise (Exn KeyError "0")
  | _ => Raise (Exn TypeError
                  ("'" ++ type_name v ++ "' object is not subscriptable"))
  end.

(** *** Equality [==]

    Numbers compare by value across [bool], [int] and [float]; a string
    equals only an equal string; lists compare element by element and
    dictionaries key by key, whatever the order of insertion. *)

Definition float_eq_int (f : spec_float) (z : Z) : bool :=
  match f with
  | S754_zero _ => Z.eqb z 0
  | S754_finite s m e =>
      let v := if s then Z.neg m else Z.pos m in
      if Z.leb 0 e then Z.eqb z (v * 2 ^ e)
      else Z.eqb (v mod 2 ^ (- e)) 0 && Z.eqb z (v / 2 ^ (- e))
  | _ => false
  end.

Definition as_number (v : pyval) : option (Z + spec_float) :=
  match v with
  | PBool b => Some (inl (if b then 1%Z else 0%Z))
  | PInt z => Some (inl z)
  | PFloat f => Some (inr f)
  | _ => None
  end.

Definition num_eq (a b : Z + spec_float) : bool :=
  match a, b with
  | inl x, inl y => Z.eqb x y
  | inr f, inr g => SFeqb f g
  | inl x, inr g => float_eq_int g x
  | inr f, inl y => float_eq_int f y
  end.

Fixpoint py_eq (a b : pyval) {struct a} : bool :=
  match a with
  | PNone => match b with PNone => true | _ => false end
  | PStr s => match b with PStr t => String.eqb s t | _ => false end
  | PList l =>
      match b with
      | PList m =>
          (fix all2 (l : list pyval) (m : list pyval) {struct l} : bool :=
             match l, m with
             | [], [] => true
             | x :: l', y :: m' => py_eq x y && all2 l' m'
             | _, _ => false
             end) l m
      | _ => false
      end
  | PDict d =>
      match b with
      | PDict d' =>
          Nat.eqb (List.length d) (List.length d') &&
          (fix sub (d : list (string * pyval)) {struct d} : bool :=
             match d with
             | [] => true
             | (k, v) :: rest =>
                 match dict_lookup k d' with
                 | Some w => py_eq v w && sub rest
                 | None => false
                 end
             end) d
      | _ => false
      end
  | _ =>
      match as_number a, as_number b with
      | Some x, Some y => num_eq x y
      | _, _ => false
      end
  end.

(** *** [str.strip()] *)

(** [c.isspace()] for a character below 256. *)
Definition is_space (c : ascii) : bool :=
  let n := nat_of_ascii c in
  (Nat.leb 9 n && Nat.leb n 13) || (Nat.leb 28 n && Nat.leb n 32)
  || Nat.eqb n 133 || Nat.eqb n 160.

Fixpoint lstrip (s : string) : string :=
  match s with
  | EmptyString => EmptyString
  | String c s' => if is_space c then lstrip s' else s
  end.

Fixpoint rstrip (s : string) : string :=
  match s with
  | EmptyString => EmptyString
  | String c s' =>
      match rstrip s' with
      | EmptyString => if is_space c then EmptyString else String c EmptyString
      | r => String c r
      end
  end.

Definition strip (s : string) : string := rstrip (lstrip s).

(** ** The world outside the repository *)

Section Server.

(** [Model] is the type of loaded [SentenceTransformer] objects and
    [World] whatever the library's behaviour depends on and changes
    (disk, network, caches). *)
Context {Model World : Type}.

Record Runtime : Type := {
  (** the module constant set by the guarded import *)
  SENTENCE_TRANSFORMERS_AVAILABLE : bool;
  (** [SentenceTransformer(model_name)] *)
  SentenceTransformer : pyval -> World -> result Model * World;
  (** [bool(model)] of a loaded model object *)
  model_truthy : Model -> bool;
  (** [model.encode(texts, convert_to_numpy=True)] followed by [.tolist()]
      on what it returned *)
  encode_tolist : Model -> pyval -> World -> result pyval * World;
  (** [json.loads(line)] *)
  json_loads : string -> result pyval;
  (** [str(v)] for a value that is not a string *)
  builtin_str : pyval -> string;
  (** [traceback.format_exc()] while [e] is being handled *)
  format_exc : exn -> string
}.

(** The attributes of an [EmbeddingServer] instance. *)
Record EmbeddingServer : Type := {
  model : option Model;
  current_model_name : pyval
}.

(** [EmbeddingServer.__init__] *)
Definition init : EmbeddingServer :=
  {| model := None; current_model_name := PNone |}.

(** What can be observed of a run, in order. *)
Inductive event : Type :=
| Stdin (line : string)                    (* a line taken from [sys.stdin] *)
| Stdout (v : pyval)                       (* [print(json.dumps(v), flush=True)] *)
| Stderr (line : string)                   (* a line printed to [sys.stderr] *)
| CallSentenceTransformer (name : pyval)   (* the constructor is called *)
| CallEncode (m : Model) (texts : pyval).  (* [encode] is called *)

(** ** The monad of methods

    A computation starts from the server object and the world and ends
    with a value or a raised exception, the server object and the world
    as they are then (nothing is rolled back when an exception is
    raised), and the events it produced. *)
Definition M (A : Type) : Type :=
  EmbeddingServer -> World -> result A * EmbeddingServer * World * list event.

Definition ret {A} (a : A) : M A :=
  fun self w => (Ok a, self, w, []).

Definition raise {A} (e : exn) : M A :=
  fun self w => (Raise e, self, w, []).

Definition bind {A B} (m : M A) (f : A -> M B) : M B :=
  fun self w =>
    match m self w with
    | (Ok a, self1, w1, t1) =>
        match f a self1 w1 with
        | (r, self2, w2, t2) => (r, self2, w2, t1 ++ t2)
        end
    | (Raise e, self1, w1, t1) => (Raise e, self1, w1, t1)
    end.

(** [try: m  except Exception as e: h e] *)
Definition try_except {A} (m : M A) (h : exn -> M A) : M A :=
  fun self w =>
    match m self w with
    | (Ok a, self1, w1, t1) => (Ok a, self1, w1, t1)
    | (Raise e, self1, w1, t1) =>
        match h e self1 w1 with
        | (r, self2, w2, t2) => (r, self2, w2, t1 ++ t2)
        end
    end.

(** [try: m  except json.JSONDecodeError as e: h e]: any other exception
    goes on. *)
Definition try_except_JSONDecodeError {A} (m : M A) (h : exn -> M A) : M A :=
  fun self w =>
    match m self w with
    | (Ok a, self1, w1, t1) => (Ok a, self1, w1, t1)
    | (Raise e, self1, w1, t1) =>
        if is_JSONDecodeError e then
          match h e self1 w1 with
          | (r, self2, w2, t2) => (r, self2, w2, t1 ++ t2)
          end
        else (Raise e, self1, w1, t1)
    end.

(** [try: m  finally: f] *)
Definition try_finally {A} (m : M A) (f : M unit) : M A :=
  fun self w =>
    match m self w with
    | (r, self1, w1, t1) =>
        match f self1 w1 with
        | (Ok _, self2, w2, t2) => (r, self2, w2, t1 ++ t2)
        | (Raise e, self2, w2, t2) => (Raise e, self2, w2, t1 ++ t2)
        end
    end.

Definition lift {A} (r : result A) : M A :=
  fun self w => (r, self, w, []).

Definition emit (e : event) : M unit :=
  fun self w => (Ok tt, self, w, [e]).

Definition get_self : M EmbeddingServer :=
  fun self w => (Ok self, self, w, []).

Definition put_self (self' : EmbeddingServer) : M unit :=
  fun _ w => (Ok tt, self', w, []).

(** A call to a collaborator that reads and changes the world. *)
Definition extern {A} (call : event) (f : World -> result A * World) : M A :=
  fun self w =>
    match f w with
    | (r, w') => (r, self, w', [call])
    end.

Notation "x <- m ;; k" := (bind m (fun x => k))
  (at level 61, m at next level, right associativity).
Notation "m ;; k" := (bind m (fun _ => k))
  (at level 61, right associativity).

(** ** The server *)

Variable rt : Runtime.

(** [str(v)] *)
Definition py_str (v : pyval) : string :=
  match v with
  | PStr s => s
  | _ => builtin_str rt v
  end.

(** [log_info] *)
Definition log_info (message : string) : M unit :=
  emit (Stderr ("[INFO] " ++ message)).

(** [log_error] *)
Definition log_error (message : string) : M unit :=
  emit (Stderr ("[ERROR] " ++ message)).

(** The test [self.model and self.current_model_name == model_name]. *)
Definition already_loaded (self : EmbeddingServer) (model_name : pyval) : bool :=
  match model self with
  | None => false
  | Some m => model_truthy rt m && py_eq (current_model_name self) model_name
  end.

(** A model is held only where the library is available. *)
Definition registry_ok (self : EmbeddingServer) : Prop :=
  SENTENCE_TRANSFORMERS_AVAILABLE rt = false -> model self = None.

(** [load_model] *)
Definition load_model (model_name : pyval) : M bool :=
  if negb (SENTENCE_TRANSFORMERS_AVAILABLE rt) then ret false
  else
    try_except
      (self <- get_self ;;
       if already_loaded self model_name then ret true
       else
         m <- extern (CallSentenceTransformer model_name)
                     (SentenceTransformer rt model_name) ;;
         put_self {| model := Some m;
                     current_model_name := current_model_name self |} ;;
         put_self {| model := Some m; current_model_name := model_name |} ;;
         ret true)
      (fun e =>
         log_error ("Model loading failed: " ++ exn_str e) ;;
         ret false).

(** Loading [model_name] fails: the library is unavailable, or the
    constructor is called and raises. *)
Definition load_fails (model_name : pyval) (self : EmbeddingServer)
    (w : World) : Prop :=
  SENTENCE_TRANSFORMERS_AVAILABLE rt = false \/
  (already_loaded self model_name = false /\
   exists e w', SentenceTransformer rt model_name w = (Raise e, w')).

(** [embed] *)
Definition embed (texts : pyval) (model_name : pyval) : M pyval :=
  if negb (SENTENCE_TRANSFORMERS_AVAILABLE rt) then
    raise (Exn RuntimeError "sentence-transformers not available")
  else
    loaded <- load_model model_name ;;
    if negb loaded then
      raise (Exn RuntimeError ("Failed to load model: " ++ py_str model_name))
    else
      self <- get_self ;;
      match model self with
      | None =>
          raise (Exn AttributeError
                   "'NoneType' object has no attribute 'encode'")
      | Some m => extern (CallEncode m texts) (encode_tolist rt m texts)
      end.

(** The four response dictionaries of [handle_request]. *)
Definition ping_response (request_id : pyval) : pyval :=
  PDict [("id", request_id);
         ("success", PBool true);
         ("pong", PBool true);
         ("sentence_transformers_available",
          PBool (SENTENCE_TRANSFORMERS_AVAILABLE rt));
         ("error", PNone)].

Definition embed_response (request_id embeddings dimensions count : pyval) : pyval :=
  PDict [("id", request_id);
         ("success", PBool true);
         ("embeddings", embeddings);
         ("dimensions", dimensions);
         ("count", count);
         ("error", PNone)].

Definition shutdown_response (request_id : pyval) : pyval :=
  PDict [("id", request_id);
         ("success", PBool true);
         ("shutdown", PBool true);
         ("error", PNone)].

Definition failure_response (request_id : pyval) (e : exn) : pyval :=
  PDict [("id", request_id);
         ("success", PBool false);
         ("error", PStr (exn_str e));
         ("traceback", PStr (format_exc rt e))].

(** [len(embeddings[0]) if embeddings else 0] *)
Definition dimensions_of (embeddings : pyval) : result pyval :=
  if py_truthy embeddings then
    match py_getitem0 embeddings with
    | Ok first => py_len first
    | Raise e => Raise e
    end
  else Ok (PInt 0).

(** The body of the [try] of [handle_request]. *)
Definition dispatch (request request_id action : pyval) : M pyval :=
  if py_eq action (PStr "ping") then
    ret (ping_response request_id)
  else if py_eq action (PStr "embed") then
    texts <- lift (py_get request "texts" (PList [])) ;;
    model <- lift (py_get request "model" (PStr "all-MiniLM-L6-v2")) ;;
    if negb (py_truthy texts) then
      raise (Exn ValueError "No texts provided")
    else
      embeddings <- embed texts model ;;
      dimensions <- lift (dimensions_of embeddings) ;;
      count <- lift (py_len embeddings) ;;
      ret (embed_response request_id embeddings dimensions count)
  else if py_eq action (PStr "shutdown") then
    ret (shutdown_response request_id)
  else
    raise (Exn ValueError ("Unknown action: " ++ py_str action)).

(** [handle_request] *)
Definition handle_request (request : pyval) : M pyval :=
  request_id <- lift (py_get request "id" (PStr "unknown")) ;;
  action <- lift (py_get request "action" (PStr "unknown")) ;;
  try_except
    (dispatch request request_id action)
    (fun e => ret (failure_response request_id e)).

(** The response to a line [json.loads] rejects. *)
Definition invalid_json_response (e : exn) : pyval :=
  PDict [("success", PBool false);
         ("error", PStr ("Invalid JSON: " ++ exn_str e))].

(** The body of the [for] loop of [run] for one line; [true] is [break],
    [false] is the end of the body or [continue]. *)
Definition iteration (line : string) : M bool :=
  let line := strip line in
  if String.eqb line "" then ret false
  else
    try_except_JSONDecodeError
      (request <- lift (json_loads rt line) ;;
       response <- handle_request request ;;
       emit (Stdout response) ;;
       shutdown <- lift (py_get response "shutdown" PNone) ;;
       ret (py_truthy shutdown))
      (fun e =>
         log_error ("Invalid JSON: " ++ exn_str e) ;;
         emit (Stdout (invalid_json_response e)) ;;
         ret false).

(** How a [for] loop over the lines ends when nothing is raised. *)
Inductive loop_exit : Type :=
| Exhausted   (* the input stream ended *)
| Broke.      (* [break] *)

(** [for line in sys.stdin: ...] *)
Fixpoint for_lines (stdin : list string) : M loop_exit :=
  match stdin with
  | [] => ret Exhausted
  | line :: rest =>
      emit (Stdin line) ;;
      stop <- iteration line ;;
      if stop : bool then ret Broke else for_lines rest
  end.

(** [run] *)
Definition run (stdin : list string) : M unit :=
  log_info "Embedding server started" ;;
  try_finally
    (try_except
       (for_lines stdin ;; ret tt)
       (fun e => log_error ("Server error: " ++ exn_str e)))
    (log_info "Embedding server stopped").

End Server.

Arguments Runtime : clear implicits.
Arguments EmbeddingServer : clear implicits.
Arguments event : clear implicits.

(** ** Reading the end of a computation and its trace *)

Section Traces.

Context {Model World : Type}.

Definition outcome {A}
    (x : result A * EmbeddingServer Model * World * list (event Model)) :
    result A :=
  fst (fst (fst x)).

Definition self_after {A}
    (x : result A * EmbeddingServer Model * World * list (event Model)) :
    EmbeddingServer Model :=
  snd (fst (fst x)).

Definition world_after {A}
    (x : result A * EmbeddingServer Model * World * list (event Model)) :
    World :=
  snd (fst x).

Definition trace_of {A}
    (x : result A * EmbeddingServer Model * World * list (event Model)) :
    list (event Model) :=
  snd x.

(** The values printed on the standard output, in order. *)
Fixpoint stdout_of (t : list (event Model)) : list pyval :=
  match t with
  | [] => []
  | Stdout v :: t' => v :: stdout_of t'
  | _ :: t' => stdout_of t'
  end.

(** The lines taken from the standard input, in order. *)
Fixpoint stdin_of (t : list (event Model)) : list string :=
  match t with
  | [] => []
  | Stdin line :: t' => line :: stdin_of t'
  | _ :: t' => stdin_of t'
  end.

(** The calls made to the library, in order. *)
Definition is_library_call (e : event Model) : bool :=
  match e with
  | CallSentenceTransformer _ => true
  | CallEncode _ _ => true
  | _ => false
  end.

Definition calls_of (t : list (event Model)) : list (event Model) :=
  filter is_library_call t.

(** The traces one request can leave: nothing, a constructor call alone
    or followed by the log line of its failure, a call to [encode], or a
    constructor call followed by a call to [encode]. *)
Definition request_trace (t : list (event Model)) : Prop :=
  t = [] \/
  (exists name, t = [CallSentenceTransformer name]) \/
  (exists name line, t = [CallSentenceTransformer name; Stderr line]) \/
  (exists m texts, t = [CallEncode m texts]) \/
  (exists name m texts, t = [CallSentenceTransformer name; CallEncode m texts]).

(** The held model is one the constructor returned for the recorded
    name. *)
Definition constructed (rt : Runtime Model World)
    (self : EmbeddingServer Model) : Prop :=
  forall m, model self = Some m ->
            exists w w',
              SentenceTransformer rt (current_model_name self) w = (Ok m, w').

(** The script run as a program: a fresh server, then [run]. *)
Definition main (rt : Runtime Model World) (stdin : list string) :
    World -> result unit * EmbeddingServer Model * World * list (event Model) :=
  run rt stdin init.

End Traces.

(** A line made of white space only. *)
Fixpoint all_space (s : string) : bool :=
  match s with
  | EmptyString => true
  | String c s' => is_space c && all_space s'
  end.

(** The lines for which the loop body goes past [if not line: continue]. *)
Definition is_request_line (line : string) : bool :=
  negb (String.eqb (strip line) EmptyString).

(** A response as every branch builds it: [success] is a boolean, and
    [error] is [None] with [True] and a string with [False]. *)
Definition well_formed_response (v : pyval) : bool :=
  match py_field "success" v, py_field "error" v with
  | Some (PBool true), Some PNone => true
  | Some (PBool false), Some (PStr _) => true
  | _, _ => false
  end.

(** ** A concrete runtime

    A small world to run the server in: a model object is the name it was
    loaded from, the world counts the models constructed so far, every
    model but one loads, and a model turns each text into a vector of
    four numbers. *)

Module Demo.

Local Open Scope string_scope.

Definition dq : string := String (ascii_of_nat 34) EmptyString.

Definition quoted (s : string) : string := dq ++ s ++ dq.

Definition half : spec_float := S754_finite false 1 (-1).

Definition float_of_nat (n : nat) : spec_float :=
  match n with
  | O => S754_zero false
  | S _ => S754_finite false (Pos.of_nat n) 0
  end.

Definition vector_of (text : pyval) : list pyval :=
  match text with
  | PStr s =>
      [PFloat (float_of_nat (String.length s)); PFloat half;
       PFloat (S754_zero false); PFloat half]
  | _ => [PFloat half; PFloat half; PFloat half; PFloat half]
  end.

Definition construct (name : pyval) (w : nat) : result string * nat :=
  match name with
  | PStr s =>
      if String.eqb s "no-such-model" then
        (Raise (Exn (OtherException "OSError")
                  "no-such-model is not a valid model identifier"), w)
      else (Ok s, S w)
  | _ => (Raise (Exn TypeError "model name must be a string"), w)
  end.

Definition encode (m : string) (texts : pyval) (w : nat) : result pyval * nat :=
  match texts with
  | PList ts => (Ok (PList (map (fun t => PList (vector_of t)) ts)), w)
  | _ => (Raise (Exn TypeError "texts must be a list"), w)
  end.

(** Rows that differ in length, and a model that returns them. *)
Definition ragged : pyval :=
  PList [PList [PFloat half; PFloat half]; PList [PFloat half]].

Definition encode_ragged (m : string) (texts : pyval) (w : nat) : result pyval * nat :=
  (Ok ragged, w).

(** The line [{k1:v1,k2:v2,...}] with every key and value quoted. *)
Fixpoint members (kvs : list (string * string)) : string :=
  match kvs with
  | [] => EmptyString
  | [(k, v)] => quoted k ++ ":" ++ quoted v
  | (k, v) :: rest => quoted k ++ ":" ++ quoted v ++ "," ++ members rest
  end.

Definition object_line (kvs : list (string * string)) : string :=
  "{" ++ members kvs ++ "}".

Definition shutdown_line : string :=
  object_line [("id", "2"); ("action", "shutdown")].

Definition shutdown_request : list (string * pyval) :=
  [("id", PStr "2"); ("action", PStr "shutdown")].

Definition ping_line : string :=
  object_line [("id", "3"); ("action", "ping")].

Definition ping_request : list (string * pyval) :=
  [("id", PStr "3"); ("action", PStr "ping")].

(** The example request of the specification, with texts hello and world. *)
Definition embed_request : list (string * pyval) :=
  [("id", PStr "1"); ("action", PStr "embed");
   ("texts", PList [PStr "hello"; PStr "world"]); ("model", PStr "m")].

(** A decoder that knows the lines above and the array [[]], and rejects
    everything else. *)
Definition loads (line : string) : result pyval :=
  if String.eqb line shutdown_line then Ok (PDict shutdown_request)
  else if String.eqb line ping_line then Ok (PDict ping_request)
  else if String.eqb line "[]" then Ok (PList [])
  else Raise (Exn JSONDecodeError
                "Expecting property name enclosed in double quotes: line 1 column 2 (char 1)").

Definition show (v : pyval) : string :=
  match v with
  | PNone => "None"
  | PBool true => "True"
  | PBool false => "False"
  | PStr s => s
  | _ => "<" ++ type_name v ++ ">"
  end.

Definition rt : Runtime string nat := {|
  SENTENCE_TRANSFORMERS_AVAILABLE := true;
  SentenceTransformer := construct;
  model_truthy := fun _ => true;
  encode_tolist := encode;
  json_loads := loads;
  builtin_str := show;
  format_exc := fun e => "Traceback (most recent call last): " ++ exn_str e
|}.

Definition rt_ragged : Runtime string nat := {|
  SENTENCE_TRANSFORMERS_AVAILABLE := true;
  SentenceTransformer := construct;
  model_truthy := fun _ => true;
  encode_tolist := encode_ragged;
  json_loads := loads;
  builtin_str := show;
  format_exc := fun e => "Traceback (most recent call last): " ++ exn_str e
|}.

(** The same world without the library. *)
Definition rt_unavailable : Runtime string nat := {|
  SENTENCE_TRANSFORMERS_AVAILABLE := false;
  SentenceTransformer := construct;
  model_truthy := fun _ => true;
  encode_tolist := encode;
  json_loads := loads;
  builtin_str := show;
  format_exc := fun e => "Traceback (most recent call last): " ++ exn_str e
|}.

(** A server that has loaded nothing yet, and one that holds the model
    of the name m. *)
Definition start : EmbeddingServer string := init.

Definition loaded : EmbeddingServer string :=
  {| model := Some "m"; current_model_name := PStr "m" |}.

(** A request whose texts are one string and no list: this model's
    [encode] raises on it. *)
Definition text_request : list (string * pyval) :=
  [("id", PStr "4"); ("action", PStr "embed"); ("texts", PStr "hello")].

(** A request for the model that does not load. *)
Definition missing_request : list (string * pyval) :=
  [("id", PStr "5"); ("action", PStr "embed");
   ("texts", PList [PStr "hello"]); ("model", PStr "no-such-model")].

(** A request whose model is [null]. *)
Definition null_model_request : list (string * pyval) :=
  [("action", PStr "embed"); ("texts", PList [PStr "hello"]);
   ("model", PNone)].

(** The line of [embed_request]. *)
Definition embed_line : string :=
  "{" ++ quoted "id" ++ ":" ++ quoted "1" ++ ","
  ++ quoted "action" ++ ":" ++ quoted "embed" ++ ","
  ++ quoted "texts" ++ ":[" ++ quoted "hello" ++ "," ++ quoted "world" ++ "],"
  ++ quoted "model" ++ ":" ++ quoted "m" ++ "}".

(** A line nested deeper than this decoder goes. *)
Definition deep_line : string := "[[[[[[[[[[[[[[[[".

(** A decoder that also knows [embed_line], and gives up on [deep_line]
    with an exception of its own. *)
Definition loads_limited (line : string) : result pyval :=
  if String.eqb line embed_line then Ok (PDict embed_request)
  else if String.eqb line deep_line then
    Raise (Exn (OtherException "RecursionError")
             "maximum recursion depth exceeded while decoding a JSON array from a unicode string")
  else loads line.

Definition rt_limited : Runtime string nat := {|
  SENTENCE_TRANSFORMERS_AVAILABLE := true;
  SentenceTransformer := construct;
  model_truthy := fun _ => true;
  encode_tolist := encode;
  json_loads := loads_limited;
  builtin_str := show;
  format_exc := fun e => "Traceback (most recent call last): " ++ exn_str e
|}.

(** A line that is no JSON. *)
Definition broken_line : string := "{oops".

Definition broken_error : exn :=
  Exn JSONDecodeError
    "Expecting property name enclosed in double quotes: line 1 column 2 (char 1)".

End Demo.

(** * Properties *)

(** ** Python primitives *)

Example strip_ex :
  strip ("  {} " ++ String (ascii_of_nat 10) EmptyString) = "{}".
Proof. reflexivity. Qed.

Example py_eq_int_float : py_eq (PInt 1) (PFloat (S754_finite false 1 0)) = true.
Proof. reflexivity. Qed.

Example py_eq_dict_order :
  py_eq (PDict [("a", PInt 1); ("b", PList [PNone])])
        (PDict [("b", PList [PNone]); ("a", PBool true)]) = true.
Proof. reflexivity. Qed.

(** Only the string [s] equals the string [s]. *)
Lemma py_eq_str_iff (a : pyval) (s : string) :
  py_eq a (PStr s) = true <-> a = PStr s.
Proof.
  destruct a as [| b | z | f | t | l | d]; simpl; split; intros H;
    try discriminate.
  - apply String.eqb_eq in H. subst. reflexivity.
  - injection H as ->. apply String.eqb_refl.
Qed.

Lemma py_eq_str_refl (s : string) : py_eq (PStr s) (PStr s) = true.
Proof. apply py_eq_str_iff. reflexivity. Qed.

Lemma py_eq_str_neq (a : pyval) (s : string) :
  a <> PStr s -> py_eq a (PStr s) = false.
Proof.
  intros H. destruct (py_eq a (PStr s)) eqn:E; [|reflexivity].
  apply py_eq_str_iff in E. contradiction.
Qed.

(** ** The dispatcher *)

Section Dispatcher.

Context {Model World : Type}.
Variable rt : Runtime Model World.

Implicit Types (d : list (string * pyval)) (self : EmbeddingServer Model)
  (w : World).

Lemma action_of_lookup d a :
  dict_lookup "action" d = Some a -> action_of d = a.
Proof. unfold action_of, dict_get. intros ->. reflexivity. Qed.

(** On a [dict], [handle_request] is the [try] around [dispatch]. *)
Lemma handle_request_dict d self w :
  handle_request rt (PDict d) self w =
  try_except (dispatch rt (PDict d) (id_of d) (action_of d))
             (fun e => ret (failure_response rt (id_of d) e)) self w.
Proof.
  unfold handle_request, bind, lift. simpl.
  destruct (try_except _ _ self w) as [[[r s] w'] t]. reflexivity.
Qed.

(** *** The three actions and the rest *)

Lemma dispatch_ping request request_id self w :
  dispatch rt request request_id (PStr "ping") self w =
  (Ok (ping_response rt request_id), self, w, []).
Proof. reflexivity. Qed.

Lemma dispatch_shutdown request request_id self w :
  dispatch rt request request_id (PStr "shutdown") self w =
  (Ok (shutdown_response request_id), self, w, []).
Proof. reflexivity. Qed.

Lemma dispatch_unknown request request_id action self w :
  action <> PStr "ping" -> action <> PStr "embed" ->
  action <> PStr "shutdown" ->
  dispatch rt request request_id action self w =
  (Raise (Exn ValueError ("Unknown action: " ++ py_str rt action)), self, w, []).
Proof.
  intros Hp He Hs. unfold dispatch.
  rewrite (py_eq_str_neq _ _ Hp), (py_eq_str_neq _ _ He),
    (py_eq_str_neq _ _ Hs).
  reflexivity.
Qed.

(** The request's [texts] and [model], or their defaults. *)
Lemma dispatch_embed_no_texts d request_id self w :
  py_truthy (texts_of d) = false ->
  dispatch rt (PDict d) request_id (PStr "embed") self w =
  (Raise (Exn ValueError "No texts provided"), self, w, []).
Proof.
  intros H. unfold dispatch, bind, lift, raise. simpl.
  fold (texts_of d). rewrite H. reflexivity.
Qed.

(** With texts, the [embed] branch is [embed] followed by the two
    measurements of what it returned. *)
Lemma dispatch_embed_texts d request_id self w :
  py_truthy (texts_of d) = true ->
  dispatch rt (PDict d) request_id (PStr "embed") self w =
  match embed rt (texts_of d) (model_of d) self w with
  | (Ok embeddings, self1, w1, t1) =>
      match dimensions_of embeddings with
      | Ok dimensions =>
          match py_len embeddings with
          | Ok count =>
              (Ok (embed_response request_id embeddings dimensions count),
               self1, w1, t1)
          | Raise e => (Raise e, self1, w1, t1)
          end
      | Raise e => (Raise e, self1, w1, t1)
      end
  | (Raise e, self1, w1, t1) => (Raise e, self1, w1, t1)
  end.
Proof.
  intros H. unfold dispatch, bind, lift, raise, ret. simpl.
  fold (texts_of d) (model_of d). rewrite H. simpl.
  destruct (embed rt (texts_of d) (model_of d) self w) as [[[r s1] w1] t1].
  destruct r as [embeddings | e]; [| reflexivity].
  destruct (dimensions_of embeddings) as [dimensions | e];
    [| rewrite app_nil_r; reflexivity].
  destruct (py_len embeddings) as [count | e];
    rewrite !app_nil_r; reflexivity.
Qed.

(** ** The model registry *)

(** The four ways through [load_model]. *)
Lemma load_model_unavailable model_name self w :
  SENTENCE_TRANSFORMERS_AVAILABLE rt = false ->
  load_model rt model_name self w = (Ok false, self, w, []).
Proof. intros H. unfold load_model. rewrite H. reflexivity. Qed.

Lemma load_model_reuse model_name self w :
  SENTENCE_TRANSFORMERS_AVAILABLE rt = true ->
  already_loaded rt self model_name = true ->
  load_model rt model_name self w = (Ok true, self, w, []).
Proof.
  intros Ha Hl. unfold load_model, try_except, bind, get_self. rewrite Ha.
  simpl. rewrite Hl. reflexivity.
Qed.

Lemma load_model_fresh model_name self w m w1 :
  SENTENCE_TRANSFORMERS_AVAILABLE rt = true ->
  already_loaded rt self model_name = false ->
  SentenceTransformer rt model_name w = (Ok m, w1) ->
  load_model rt model_name self w =
  (Ok true, {| model := Some m; current_model_name := model_name |}, w1,
   [CallSentenceTransformer model_name]).
Proof.
  intros Ha Hl Hc.
  unfold load_model, try_except, bind, get_self, extern, put_self, ret.
  rewrite Ha. simpl. rewrite Hl, Hc. reflexivity.
Qed.

Lemma load_model_raises model_name self w e w1 :
  SENTENCE_TRANSFORMERS_AVAILABLE rt = true ->
  already_loaded rt self model_name = false ->
  SentenceTransformer rt model_name w = (Raise e, w1) ->
  load_model rt model_name self w =
  (Ok false, self, w1,
   [CallSentenceTransformer model_name;
    Stderr ("[ERROR] Model loading failed: " ++ exn_str e)]).
Proof.
  intros Ha Hl Hc.
  unfold load_model, try_except, bind, get_self, extern, put_self, ret,
    log_error, emit.
  rewrite Ha. simpl. rewrite Hl, Hc. reflexivity.
Qed.

(** [load_model] returns a boolean whatever happens, and when it is
    [True] a model is held. *)
Lemma load_model_returns model_name self w :
  exists b self' w' t,
    load_model rt model_name self w = (Ok b, self', w', t) /\
    (b = false -> self' = self) /\
    (b = true -> SENTENCE_TRANSFORMERS_AVAILABLE rt = true /\
                 exists m, model self' = Some m).
Proof.
  destruct (SENTENCE_TRANSFORMERS_AVAILABLE rt) eqn:Ha.
  - destruct (already_loaded rt self model_name) eqn:Hl.
    + exists true, self, w, []. rewrite load_model_reuse by assumption.
      repeat split; try discriminate.
      unfold already_loaded in Hl. destruct (model self) as [m |];
        [exists m; reflexivity | discriminate].
    + destruct (SentenceTransformer rt model_name w) as [[m | e] w1] eqn:Hc.
      * eexists true, _, w1, _. rewrite (load_model_fresh _ _ _ _ _ Ha Hl Hc).
        repeat split; try discriminate. exists m. reflexivity.
      * eexists false, self, w1, _.
        rewrite (load_model_raises _ _ _ _ _ Ha Hl Hc).
        repeat split; discriminate.
  - exists false, self, w, []. rewrite load_model_unavailable by assumption.
    repeat split; discriminate.
Qed.

(** [embed] once [load_model] has answered. *)
Lemma embed_loaded texts model_name self w self1 w1 t1 m :
  load_model rt model_name self w = (Ok true, self1, w1, t1) ->
  model self1 = Some m ->
  embed rt texts model_name self w =
  (let '(r, w2) := encode_tolist rt m texts w1 in
   (r, self1, w2, (t1 ++ [CallEncode m texts])%list)).
Proof.
  intros Hl Hm. unfold embed.
  destruct (SENTENCE_TRANSFORMERS_AVAILABLE rt) eqn:Ha.
  - simpl. unfold bind. rewrite Hl. simpl. unfold get_self. simpl.
    rewrite Hm. unfold extern.
    destruct (encode_tolist rt m texts w1) as [r w2]. reflexivity.
  - rewrite load_model_unavailable in Hl by assumption. discriminate.
Qed.

Lemma embed_not_loaded texts model_name self w self1 w1 t1 :
  SENTENCE_TRANSFORMERS_AVAILABLE rt = true ->
  load_model rt model_name self w = (Ok false, self1, w1, t1) ->
  embed rt texts model_name self w =
  (Raise (Exn RuntimeError ("Failed to load model: " ++ py_str rt model_name)),
   self1, w1, t1).
Proof.
  intros Ha Hl. unfold embed. rewrite Ha. simpl. unfold bind. rewrite Hl.
  simpl. rewrite app_nil_r. reflexivity.
Qed.

Lemma embed_unavailable texts model_name self w :
  SENTENCE_TRANSFORMERS_AVAILABLE rt = false ->
  embed rt texts model_name self w =
  (Raise (Exn RuntimeError "sentence-transformers not available"), self, w, []).
Proof. intros Ha. unfold embed. rewrite Ha. reflexivity. Qed.

(** ** Responses of the dispatcher *)

(** Whatever [dispatch] returns is a success response for the request. *)
Lemma dispatch_Ok d action self w response self1 w1 t1 :
  dispatch rt (PDict d) (id_of d) action self w = (Ok response, self1, w1, t1) ->
  py_field "id" response = Some (id_of d) /\
  py_field "success" response = Some (PBool true).
Proof.
  intros H.
  destruct (py_eq action (PStr "ping")) eqn:Ep.
  { apply py_eq_str_iff in Ep. subst action. rewrite dispatch_ping in H.
    injection H as <- _ _ _. split; reflexivity. }
  destruct (py_eq action (PStr "embed")) eqn:Ee.
  { apply py_eq_str_iff in Ee. subst action.
    destruct (py_truthy (texts_of d)) eqn:Ht.
    - rewrite dispatch_embed_texts in H by assumption.
      destruct (embed rt (texts_of d) (model_of d) self w) as [[[r s] w'] t].
      destruct r as [embeddings | e]; [| discriminate].
      destruct (dimensions_of embeddings); [| discriminate].
      destruct (py_len embeddings); [| discriminate].
      injection H as <- _ _ _. split; reflexivity.
    - rewrite dispatch_embed_no_texts in H by assumption. discriminate. }
  destruct (py_eq action (PStr "shutdown")) eqn:Es.
  { apply py_eq_str_iff in Es. subst action. rewrite dispatch_shutdown in H.
    injection H as <- _ _ _. split; reflexivity. }
  unfold dispatch in H. rewrite Ep, Ee, Es in H. discriminate.
Qed.

(** An exception raised under the [try] becomes a failure response. *)
Lemma handle_request_catches d self w e self1 w1 t1 :
  dispatch rt (PDict d) (id_of d) (action_of d) self w = (Raise e, self1, w1, t1) ->
  handle_request rt (PDict d) self w =
  (Ok (failure_response rt (id_of d) e), self1, w1, t1).
Proof.
  intros H. rewrite handle_request_dict. unfold try_except. rewrite H.
  simpl. rewrite app_nil_r. reflexivity.
Qed.

Lemma handle_request_returns d self w response self1 w1 t1 :
  dispatch rt (PDict d) (id_of d) (action_of d) self w = (Ok response, self1, w1, t1) ->
  handle_request rt (PDict d) self w = (Ok response, self1, w1, t1).
Proof.
  intros H. rewrite handle_request_dict. unfold try_except. rewrite H.
  reflexivity.
Qed.

(** A value that is not a [dict] has no [get]: the first line of
    [handle_request] raises, outside the [try]. *)
Lemma handle_request_not_dict request self w :
  (forall d, request <> PDict d) ->
  handle_request rt request self w =
  (Raise (Exn AttributeError
            ("'" ++ type_name request ++ "' object has no attribute 'get'")),
   self, w, []).
Proof.
  intros H. destruct request; try reflexivity. exfalso. eapply H. reflexivity.
Qed.

(** C1, as amended: on every decoded request that is a JSON object,
    [handle_request] returns a response and raises nothing.  The response
    carries the request's [id], or the sentinel when the request has none;
    it has [success] true, or [success] false and an [error] message; and
    whenever the body of the [try] raises, the response is the failure
    response made from that exception. *)
Theorem handle_request_total_on_dict d self w :
  exists response self' w' t,
    handle_request rt (PDict d) self w = (Ok response, self', w', t) /\
    py_field "id" response = Some (id_of d) /\
    (py_field "success" response = Some (PBool true) \/
     py_field "success" response = Some (PBool false) /\
     exists message, py_field "error" response = Some (PStr message)) /\
    (forall e self1 w1 t1,
        dispatch rt (PDict d) (id_of d) (action_of d) self w
        = (Raise e, self1, w1, t1) ->
        response = failure_response rt (id_of d) e /\
        py_field "success" response = Some (PBool false) /\
        py_field "error" response = Some (PStr (exn_str e))).
Proof.
  destruct (dispatch rt (PDict d) (id_of d) (action_of d) self w)
    as [[[r self1] w1] t1] eqn:Hd.
  destruct r as [response | e].
  - exists response, self1, w1, t1.
    destruct (dispatch_Ok _ _ _ _ _ _ _ _ Hd) as [Hid Hs].
    rewrite (handle_request_returns _ _ _ _ _ _ _ Hd).
    split; [reflexivity |]. split; [exact Hid |].
    split; [left; exact Hs |]. intros; discriminate.
  - exists (failure_response rt (id_of d) e), self1, w1, t1.
    rewrite (handle_request_catches _ _ _ _ _ _ _ Hd).
    split; [reflexivity |]. split; [reflexivity |]. split.
    + right. split; [reflexivity |]. eexists. reflexivity.
    + intros e' self2 w2 t2 [= <- _ _ _]. repeat split; reflexivity.
Qed.

(** C9: a [ping] request is answered with [success] true, the request's
    [id], the liveness flag [pong] and the availability of the library,
    in every state of the registry; the server object and the world are
    left as they were and no collaborator is called. *)
Theorem ping_succeeds_in_every_state d self w :
  dict_lookup "action" d = Some (PStr "ping") ->
  exists response,
    handle_request rt (PDict d) self w = (Ok response, self, w, []) /\
    py_field "success" response = Some (PBool true) /\
    py_field "id" response = Some (id_of d) /\
    py_field "pong" response = Some (PBool true) /\
    py_field "sentence_transformers_available" response
    = Some (PBool (SENTENCE_TRANSFORMERS_AVAILABLE rt)).
Proof.
  intros Ha. apply action_of_lookup in Ha.
  exists (ping_response rt (id_of d)). split.
  - apply handle_request_returns. rewrite Ha. apply dispatch_ping.
  - repeat split; reflexivity.
Qed.

(** C8: when the request's action is missing or is none of [embed],
    [ping], [shutdown], the response has [success] false and its [error]
    is the text [Unknown action: ] followed by the action as [str] prints
    it: the action itself when it is a string, the sentinel [unknown]
    when the request has no action. *)
Theorem unknown_action_is_named d self w :
  action_of d <> PStr "ping" ->
  action_of d <> PStr "embed" ->
  action_of d <> PStr "shutdown" ->
  exists response,
    handle_request rt (PDict d) self w = (Ok response, self, w, []) /\
    py_field "success" response = Some (PBool false) /\
    py_field "id" response = Some (id_of d) /\
    py_field "error" response
    = Some (PStr ("Unknown action: " ++ py_str rt (action_of d))) /\
    (forall s, dict_lookup "action" d = Some (PStr s) ->
               py_field "error" response = Some (PStr ("Unknown action: " ++ s))) /\
    (dict_lookup "action" d = None ->
     py_field "error" response = Some (PStr "Unknown action: unknown")).
Proof.
  intros Hp He Hs. eexists. split.
  - apply handle_request_catches. apply dispatch_unknown; assumption.
  - repeat split.
    + intros s H. apply action_of_lookup in H. simpl. rewrite H. reflexivity.
    + intros H. simpl. unfold action_of, dict_get. rewrite H. reflexivity.
Qed.

(** Absent texts and an empty list of texts are both empty. *)
Lemma absent_or_empty_texts d :
  dict_lookup "texts" d = None \/ dict_lookup "texts" d = Some (PList []) ->
  py_truthy (texts_of d) = false.
Proof. unfold texts_of, dict_get. intros [-> | ->]; reflexivity. Qed.

(** C7: an [embed] request whose texts are absent or empty is answered
    with [success] false and the error [No texts provided]; nothing is
    loaded or encoded (no event at all is produced) and the server object
    and the world are left as they were. *)
Theorem embed_without_texts_fails d self w :
  dict_lookup "action" d = Some (PStr "embed") ->
  py_truthy (texts_of d) = false ->
  exists response,
    handle_request rt (PDict d) self w = (Ok response, self, w, []) /\
    py_field "success" response = Some (PBool false) /\
    py_field "id" response = Some (id_of d) /\
    py_field "error" response = Some (PStr "No texts provided").
Proof.
  intros Ha Ht. apply action_of_lookup in Ha. eexists. split.
  - apply handle_request_catches. rewrite Ha.
    apply dispatch_embed_no_texts. assumption.
  - repeat split; reflexivity.
Qed.

(** ** Loading and reuse *)

(** C4: [load_model] always returns a boolean and raises nothing.  When
    loading fails (the library is unavailable, or the constructor is
    called and raises) it returns [False] and the server object, that is
    the held model and the recorded name, is exactly what it was.  The
    held model or the recorded name differ after the call only when it
    returned [True]. *)
Theorem load_model_failure_keeps_registry model_name self w r self' w' t :
  load_model rt model_name self w = (r, self', w', t) ->
  (exists b, r = Ok b) /\
  (load_fails rt model_name self w -> r = Ok false /\ self' = self) /\
  (model self' <> model self \/
   current_model_name self' <> current_model_name self -> r = Ok true).
Proof.
  intros H.
  destruct (load_model_returns model_name self w)
    as (b & s1 & w1 & t1 & Heq & Hfalse & _).
  rewrite Heq in H. injection H as <- <- <- <-.
  split; [exists b; reflexivity |]. split.
  - intros [Hu | (Hl & e & w2 & Hc)].
    + rewrite load_model_unavailable in Heq by assumption.
      injection Heq as <- <- _ _. split; reflexivity.
    + destruct (SENTENCE_TRANSFORMERS_AVAILABLE rt) eqn:Ha.
      * rewrite (load_model_raises _ _ _ _ _ Ha Hl Hc) in Heq.
        injection Heq as <- <- _ _. split; reflexivity.
      * rewrite load_model_unavailable in Heq by assumption.
        injection Heq as <- <- _ _. split; reflexivity.
  - intros Hdiff. destruct b; [reflexivity |].
    rewrite (Hfalse eq_refl) in Hdiff. destruct Hdiff as [Hd | Hd];
      exfalso; apply Hd; reflexivity.
Qed.

(** C5: while a model is held under the name [n], loading [n] again
    returns [True] at once: the constructor is not called and the server
    object and the world are unchanged.  Loading another name [n'] calls
    the constructor once and, when it returns a model, that model
    replaces the held one under the name [n']; from then on [embed] with
    [n'] encodes with the new model and constructs nothing. *)
Theorem load_model_reuses_or_replaces (n n' : string) self w m m' w1 :
  SENTENCE_TRANSFORMERS_AVAILABLE rt = true ->
  (forall held, model_truthy rt held = true) ->
  model self = Some m ->
  current_model_name self = PStr n ->
  n' <> n ->
  SentenceTransformer rt (PStr n') w = (Ok m', w1) ->
  let self' := {| model := Some m'; current_model_name := PStr n' |} in
  load_model rt (PStr n) self w = (Ok true, self, w, []) /\
  load_model rt (PStr n') self w
  = (Ok true, self', w1, [CallSentenceTransformer (PStr n')]) /\
  (forall w2, load_model rt (PStr n') self' w2 = (Ok true, self', w2, [])) /\
  (forall texts w2,
      embed rt texts (PStr n') self' w2 =
      (fst (encode_tolist rt m' texts w2), self',
       snd (encode_tolist rt m' texts w2), [CallEncode m' texts])).
Proof.
  intros Ha Htruthy Hm Hn Hneq Hc self'.
  assert (Hsame : already_loaded rt self (PStr n) = true).
  { unfold already_loaded. rewrite Hm, Hn, Htruthy. apply py_eq_str_refl. }
  assert (Hother : already_loaded rt self (PStr n') = false).
  { unfold already_loaded. rewrite Hm, Hn, Htruthy. simpl.
    apply String.eqb_neq. congruence. }
  assert (Hnew : already_loaded rt self' (PStr n') = true).
  { unfold already_loaded. simpl. rewrite Htruthy. apply String.eqb_refl. }
  split; [apply load_model_reuse; assumption |].
  split; [apply load_model_fresh; assumption |].
  split; [intros w2; apply load_model_reuse; assumption |].
  intros texts w2.
  rewrite (embed_loaded texts (PStr n') self' w2 self' w2 [] m');
    [| apply load_model_reuse; assumption | reflexivity].
  destruct (encode_tolist rt m' texts w2) as [r w3]. reflexivity.
Qed.

(** ** Successful embedding *)

(** C2: for an [embed] request with a non-empty list of [n] texts, when
    the model loads and its [encode] returns one vector per text, each of
    [dim] numbers, the response has [success] true, its [embeddings] are
    exactly those [n] vectors in the order of the texts, [count] is [n]
    and [dimensions] is [dim]. *)
Theorem embed_returns_one_vector_per_text
    d ts self w self1 w1 t1 m (vec : pyval -> list pyval) dim w2 :
  dict_lookup "action" d = Some (PStr "embed") ->
  texts_of d = PList ts ->
  ts <> [] ->
  load_model rt (model_of d) self w = (Ok true, self1, w1, t1) ->
  model self1 = Some m ->
  encode_tolist rt m (PList ts) w1
  = (Ok (PList (map (fun text => PList (vec text)) ts)), w2) ->
  (forall text, In text ts -> List.length (vec text) = dim) ->
  exists embeddings response,
    handle_request rt (PDict d) self w
    = (Ok response, self1, w2, (t1 ++ [CallEncode m (PList ts)])%list) /\
    py_field "success" response = Some (PBool true) /\
    py_field "id" response = Some (id_of d) /\
    py_field "embeddings" response = Some (PList embeddings) /\
    List.length embeddings = List.length ts /\
    py_field "count" response = Some (PInt (Z.of_nat (List.length ts))) /\
    py_field "dimensions" response = Some (PInt (Z.of_nat dim)) /\
    (forall i text,
        nth_error ts i = Some text ->
        nth_error embeddings i = Some (PList (vec text)) /\
        List.length (vec text) = dim).
Proof.
  intros Ha Hts Hne Hload Hm Henc Hdim.
  apply action_of_lookup in Ha.
  set (rows := map (fun text => PList (vec text)) ts) in *.
  assert (Hembed : embed rt (texts_of d) (model_of d) self w =
                   (Ok (PList rows), self1, w2,
                    (t1 ++ [CallEncode m (PList ts)])%list)).
  { rewrite (embed_loaded _ _ _ _ _ _ _ _ Hload Hm), Hts, Henc. reflexivity. }
  assert (Htruthy : py_truthy (texts_of d) = true).
  { rewrite Hts. destruct ts; [contradiction | reflexivity]. }
  assert (Hdims : dimensions_of (PList rows) = Ok (PInt (Z.of_nat dim))).
  { subst rows. destruct ts as [| text ts']; [contradiction |].
    unfold dimensions_of. simpl.
    rewrite (Hdim text) by (left; reflexivity). reflexivity. }
  exists rows.
  exists (embed_response (id_of d) (PList rows) (PInt (Z.of_nat dim))
            (PInt (Z.of_nat (List.length rows)))).
  split.
  { apply handle_request_returns. rewrite Ha.
    rewrite dispatch_embed_texts by assumption.
    rewrite Hembed, Hdims. reflexivity. }
  assert (Hlen : List.length rows = List.length ts)
    by (subst rows; apply length_map).
  repeat split; try reflexivity; try assumption.
  - simpl. rewrite Hlen. reflexivity.
  - subst rows. rewrite nth_error_map, H. reflexivity.
  - apply Hdim. eapply nth_error_In. eassumption.
Qed.

(** C10: in the response to an [embed] request whose [embed] call returned
    [embeddings], the field [dimensions] is [0] when the list is empty and
    the length of the first vector otherwise, whatever the vectors after
    the first are; a response with [success] true always carries
    [len(embeddings[0]) if embeddings else 0]. *)
Theorem dimensions_is_length_of_first_vector
    d self w embeddings self1 w1 t1 :
  dict_lookup "action" d = Some (PStr "embed") ->
  py_truthy (texts_of d) = true ->
  embed rt (texts_of d) (model_of d) self w = (Ok embeddings, self1, w1, t1) ->
  (embeddings = PList [] ->
   handle_request rt (PDict d) self w
   = (Ok (embed_response (id_of d) (PList []) (PInt 0) (PInt 0)),
      self1, w1, t1)) /\
  (forall first rest n,
      embeddings = PList (first :: rest) ->
      py_len first = Ok n ->
      handle_request rt (PDict d) self w
      = (Ok (embed_response (id_of d) (PList (first :: rest)) n
               (PInt (Z.of_nat (S (List.length rest))))),
         self1, w1, t1)) /\
  (forall response self' w' t,
      handle_request rt (PDict d) self w = (Ok response, self', w', t) ->
      py_field "success" response = Some (PBool true) ->
      exists n, dimensions_of embeddings = Ok n /\
                py_field "dimensions" response = Some n).
Proof.
  intros Ha Ht He. apply action_of_lookup in Ha.
  pose proof (dispatch_embed_texts d (id_of d) self w Ht) as Hd.
  rewrite He in Hd. rewrite <- Ha in Hd.
  split; [| split].
  - intros ->. apply handle_request_returns. rewrite Hd. reflexivity.
  - intros first rest n -> Hn. apply handle_request_returns. rewrite Hd.
    unfold dimensions_of. simpl. rewrite Hn. reflexivity.
  - intros response self' w' t Hr Hs.
    destruct (dimensions_of embeddings) as [n | e].
    + destruct (py_len embeddings) as [count | e].
      * rewrite (handle_request_returns _ _ _ _ _ _ _ Hd) in Hr.
        injection Hr as <- _ _ _. exists n. split; reflexivity.
      * rewrite (handle_request_catches _ _ _ _ _ _ _ Hd) in Hr.
        injection Hr as <- _ _ _. discriminate.
    + rewrite (handle_request_catches _ _ _ _ _ _ _ Hd) in Hr.
      injection Hr as <- _ _ _. discriminate.
Qed.

(** ** The session loop *)


(** The ways through one turn of the loop. *)
Lemma iteration_blank line self w :
  strip line = EmptyString ->
  iteration rt line self w = (Ok false, self, w, []).
Proof. intros H. unfold iteration. rewrite H. reflexivity. Qed.

Lemma iteration_invalid line self w e :
  strip line <> EmptyString ->
  json_loads rt (strip line) = Raise e ->
  is_JSONDecodeError e = true ->
  iteration rt line self w =
  (Ok false, self, w,
   [Stderr ("[ERROR] Invalid JSON: " ++ exn_str e);
    Stdout (invalid_json_response e)]).
Proof.
  intros Hne Hl He. apply String.eqb_neq in Hne.
  unfold iteration, try_except_JSONDecodeError, bind, lift, log_error, emit.
  rewrite Hne, Hl. simpl. rewrite He. reflexivity.
Qed.

Lemma iteration_answer line self w request fields self1 w1 t1 :
  strip line <> EmptyString ->
  json_loads rt (strip line) = Ok request ->
  handle_request rt request self w = (Ok (PDict fields), self1, w1, t1) ->
  iteration rt line self w =
  (Ok (py_truthy (dict_get fields "shutdown" PNone)), self1, w1,
   (t1 ++ [Stdout (PDict fields)])%list).
Proof.
  intros Hne Hl Hh. apply String.eqb_neq in Hne.
  unfold iteration, try_except_JSONDecodeError, bind, lift, emit, ret.
  rewrite Hne, Hl. simpl. rewrite Hh. simpl. reflexivity.
Qed.

(** An exception of [handle_request] that is no [JSONDecodeError] leaves
    the loop body. *)
Lemma iteration_escapes line self w request e self1 w1 t1 :
  strip line <> EmptyString ->
  json_loads rt (strip line) = Ok request ->
  handle_request rt request self w = (Raise e, self1, w1, t1) ->
  is_JSONDecodeError e = false ->
  iteration rt line self w = (Raise e, self1, w1, t1).
Proof.
  intros Hne Hl Hh He. apply String.eqb_neq in Hne.
  unfold iteration, try_except_JSONDecodeError, bind, lift.
  rewrite Hne, Hl. simpl. rewrite Hh, He. reflexivity.
Qed.

(** One turn, then the rest of the loop. *)
Lemma for_lines_cons line rest self w :
  for_lines rt (line :: rest) self w =
  match iteration rt line self w with
  | (Ok true, self1, w1, t1) => (Ok Broke, self1, w1, Stdin line :: t1)
  | (Ok false, self1, w1, t1) =>
      let '(r, self2, w2, t2) := for_lines rt rest self1 w1 in
      (r, self2, w2, Stdin line :: (t1 ++ t2)%list)
  | (Raise e, self1, w1, t1) => (Raise e, self1, w1, Stdin line :: t1)
  end.
Proof.
  simpl. unfold bind, emit, ret.
  destruct (iteration rt line self w) as [[[r s1] w1] t1].
  destruct r as [[|] | e]; simpl; try reflexivity.
  - rewrite app_nil_r. reflexivity.
  - destruct (for_lines rt rest s1 w1) as [[[r2 s2] w2] t2]. reflexivity.
Qed.

(** A loop that has exhausted a prefix of the input goes on with what
    follows. *)
Lemma for_lines_app before after self0 w0 self w t0 :
  for_lines rt before self0 w0 = (Ok Exhausted, self, w, t0) ->
  for_lines rt (before ++ after) self0 w0 =
  (let '(r, self', w', t) := for_lines rt after self w in
   (r, self', w', (t0 ++ t)%list)).
Proof.
  revert self0 w0 t0.
  induction before as [| line before IH]; intros self0 w0 t0 H.
  - simpl in H. unfold ret in H. injection H as <- <- <-. simpl.
    destruct (for_lines rt after self0 w0) as [[[r s] w'] t]. reflexivity.
  - rewrite <- app_comm_cons. rewrite for_lines_cons in *.
    destruct (iteration rt line self0 w0) as [[[r s1] w1] t1].
    destruct r as [[|] | e]; try discriminate.
    destruct (for_lines rt before s1 w1) as [[[r2 s2] w2] t2] eqn:Hb.
    injection H as -> -> -> <-.
    rewrite (IH _ _ _ Hb).
    destruct (for_lines rt after self w) as [[[r s] w'] t].
    rewrite app_comm_cons, app_assoc. reflexivity.
Qed.

(** [run] brackets the loop between its two log lines, and logs what
    leaves the loop. *)
Lemma run_loop_ends stdin self0 w0 how self w t :
  for_lines rt stdin self0 w0 = (Ok how, self, w, t) ->
  run rt stdin self0 w0 =
  (Ok tt, self, w,
   (Stderr "[INFO] Embedding server started" :: t
    ++ [Stderr "[INFO] Embedding server stopped"])%list).
Proof.
  intros H.
  unfold run, try_finally, try_except, bind, log_info, log_error, emit, ret.
  simpl. rewrite H. simpl. rewrite !app_nil_r. reflexivity.
Qed.

Lemma run_loop_raises stdin self0 w0 e self w t :
  for_lines rt stdin self0 w0 = (Raise e, self, w, t) ->
  run rt stdin self0 w0 =
  (Ok tt, self, w,
   (Stderr "[INFO] Embedding server started" :: t
    ++ [Stderr ("[ERROR] Server error: " ++ exn_str e);
        Stderr "[INFO] Embedding server stopped"])%list).
Proof.
  intros H.
  unfold run, try_finally, try_except, bind, log_info, log_error, emit, ret.
  simpl. rewrite H. simpl. rewrite <- app_assoc. reflexivity.
Qed.

(** Whatever the input, [run] itself returns and raises nothing. *)
Lemma run_never_raises stdin self0 w0 :
  exists self w t, run rt stdin self0 w0 = (Ok tt, self, w, t).
Proof.
  destruct (for_lines rt stdin self0 w0) as [[[r self] w] t] eqn:H.
  destruct r as [how | e].
  - rewrite (run_loop_ends _ _ _ _ _ _ _ H). eauto.
  - rewrite (run_loop_raises _ _ _ _ _ _ _ H). eauto.
Qed.

(** A blank line is skipped: nothing is printed for it. *)
Lemma blank_line_is_skipped line rest self w :
  strip line = EmptyString ->
  for_lines rt (line :: rest) self w =
  (let '(r, self', w', t) := for_lines rt rest self w in
   (r, self', w', Stdin line :: t)).
Proof.
  intros H. rewrite for_lines_cons, (iteration_blank _ _ _ H). reflexivity.
Qed.

(** A line that decodes to something else than a [dict] ends the
    session: the [AttributeError] of [handle_request] is no
    [JSONDecodeError], so it leaves the loop and is logged by [run];
    nothing is printed for the line and no later line is read. *)
Lemma non_dict_line_ends_the_session line rest request self w :
  strip line <> EmptyString ->
  json_loads rt (strip line) = Ok request ->
  (forall d, request <> PDict d) ->
  run rt (line :: rest) self w =
  (Ok tt, self, w,
   [Stderr "[INFO] Embedding server started";
    Stdin line;
    Stderr ("[ERROR] Server error: '" ++ type_name request
            ++ "' object has no attribute 'get'");
    Stderr "[INFO] Embedding server stopped"]).
Proof.
  intros Hne Hl Hnd.
  pose proof (handle_request_not_dict request self w Hnd) as Hh.
  assert (Hloop : for_lines rt (line :: rest) self w =
                  (Raise (Exn AttributeError
                            ("'" ++ type_name request
                             ++ "' object has no attribute 'get'")),
                   self, w, [Stdin line])).
  { rewrite for_lines_cons.
    rewrite (iteration_escapes _ _ _ _ _ _ _ _ Hne Hl Hh eq_refl).
    reflexivity. }
  rewrite (run_loop_raises _ _ _ _ _ _ _ Hloop). reflexivity.
Qed.

(** C3: a [shutdown] request is answered with [success] true and the
    [shutdown] flag, and the loop ends on it: whatever lines the loop has
    gone through before, after printing that response it breaks, and
    [run] logs its stop line.  No line after the request is read, and the
    outcome does not depend on them. *)
Theorem shutdown_ends_the_loop d line before rest self0 w0 self w t0 :
  dict_lookup "action" d = Some (PStr "shutdown") ->
  strip line <> EmptyString ->
  json_loads rt (strip line) = Ok (PDict d) ->
  for_lines rt before self0 w0 = (Ok Exhausted, self, w, t0) ->
  let response := shutdown_response (id_of d) in
  handle_request rt (PDict d) self w = (Ok response, self, w, []) /\
  py_field "success" response = Some (PBool true) /\
  py_field "shutdown" response = Some (PBool true) /\
  py_field "id" response = Some (id_of d) /\
  for_lines rt (before ++ line :: rest) self0 w0
  = (Ok Broke, self, w, (t0 ++ [Stdin line; Stdout response])%list) /\
  run rt (before ++ line :: rest) self0 w0
  = (Ok tt, self, w,
     (Stderr "[INFO] Embedding server started" :: t0
      ++ [Stdin line; Stdout response;
          Stderr "[INFO] Embedding server stopped"])%list).
Proof.
  intros Ha Hne Hl Hb response. apply action_of_lookup in Ha.
  assert (Hh : handle_request rt (PDict d) self w = (Ok response, self, w, [])).
  { apply handle_request_returns. rewrite Ha. apply dispatch_shutdown. }
  assert (Hloop : for_lines rt (before ++ line :: rest) self0 w0
                  = (Ok Broke, self, w,
                     (t0 ++ [Stdin line; Stdout response])%list)).
  { rewrite (for_lines_app _ (line :: rest) _ _ _ _ _ Hb), for_lines_cons.
    rewrite (iteration_answer _ _ _ _ _ _ _ _ Hne Hl Hh). reflexivity. }
  repeat split; try reflexivity; try assumption.
  rewrite (run_loop_ends _ _ _ _ _ _ _ Hloop), <- app_assoc. reflexivity.
Qed.


(** ** An invariant of the registry

    Without the library nothing is ever loaded: every request leaves the
    server object as it is, so a held model witnesses that the library is
    available. *)

Lemma dispatch_unavailable d action self w :
  SENTENCE_TRANSFORMERS_AVAILABLE rt = false ->
  exists r t, dispatch rt (PDict d) (id_of d) action self w = (r, self, w, t).
Proof.
  intros Hu.
  destruct (py_eq action (PStr "ping")) eqn:Ep.
  { apply py_eq_str_iff in Ep. subst. rewrite dispatch_ping. eauto. }
  destruct (py_eq action (PStr "embed")) eqn:Ee.
  { apply py_eq_str_iff in Ee. subst.
    destruct (py_truthy (texts_of d)) eqn:Ht.
    - rewrite dispatch_embed_texts, embed_unavailable by assumption. eauto.
    - rewrite dispatch_embed_no_texts by assumption. eauto. }
  destruct (py_eq action (PStr "shutdown")) eqn:Es.
  { apply py_eq_str_iff in Es. subst. rewrite dispatch_shutdown. eauto. }
  unfold dispatch. rewrite Ep, Ee, Es. unfold raise. eauto.
Qed.

Lemma handle_request_unavailable request self w :
  SENTENCE_TRANSFORMERS_AVAILABLE rt = false ->
  exists r t, handle_request rt request self w = (r, self, w, t).
Proof.
  intros Hu. destruct request as [| b | z | f | s | l | d];
    try (eexists; eexists; reflexivity).
  rewrite handle_request_dict. unfold try_except.
  destruct (dispatch_unavailable d (action_of d) self w Hu) as (r & t & ->).
  destruct r; simpl; eauto.
Qed.

Lemma iteration_unavailable line self w :
  SENTENCE_TRANSFORMERS_AVAILABLE rt = false ->
  exists r t, iteration rt line self w = (r, self, w, t).
Proof.
  intros Hu. unfold iteration.
  destruct (String.eqb (strip line) EmptyString); [unfold ret; eauto |].
  unfold try_except_JSONDecodeError, bind, lift, emit, log_error, ret.
  destruct (json_loads rt (strip line)) as [request | e]; simpl.
  - destruct (handle_request_unavailable request self w Hu) as (r & t & ->).
    destruct r as [response | e]; simpl.
    + destruct (py_get response "shutdown" PNone); simpl; eauto.
      destruct (is_JSONDecodeError e); eauto.
    + destruct (is_JSONDecodeError e); eauto.
  - destruct (is_JSONDecodeError e); eauto.
Qed.

Lemma for_lines_unavailable stdin self w :
  SENTENCE_TRANSFORMERS_AVAILABLE rt = false ->
  exists r t, for_lines rt stdin self w = (r, self, w, t).
Proof.
  intros Hu. induction stdin as [| line rest IH].
  - simpl. unfold ret. eauto.
  - rewrite for_lines_cons.
    destruct (iteration_unavailable line self w Hu) as (r & t & ->).
    destruct r as [[|] | e]; eauto.
    destruct IH as (r2 & t2 & ->). eauto.
Qed.

(** The invariant holds at the start and after any number of lines. *)
Lemma registry_ok_init : registry_ok rt init.
Proof. intros _. reflexivity. Qed.

Lemma registry_ok_for_lines stdin self w r self' w' t :
  registry_ok rt self ->
  for_lines rt stdin self w = (r, self', w', t) ->
  registry_ok rt self'.
Proof.
  intros Hok H Hu.
  destruct (for_lines_unavailable stdin self w Hu) as (r2 & t2 & Heq).
  rewrite Heq in H. injection H as _ <- _ _. apply Hok. assumption.
Qed.

(** So a held model witnesses an available library. *)
Lemma held_model_available self m :
  registry_ok rt self -> model self = Some m ->
  SENTENCE_TRANSFORMERS_AVAILABLE rt = true.
Proof.
  intros Hok Hm. destruct (SENTENCE_TRANSFORMERS_AVAILABLE rt) eqn:Ha;
    [reflexivity |].
  rewrite (Hok Ha) in Hm. discriminate.
Qed.

End Dispatcher.

(** * The properties at work in the concrete runtime *)

Local Open Scope nat_scope.

(** C1, as stated, fails: the array [[]] is a decoded value, and
    [handle_request] raises [AttributeError] on it instead of returning a
    response. *)
Lemma handle_request_raises_on_array :
  handle_request Demo.rt (PList []) Demo.start 0
  = (Raise (Exn AttributeError "'list' object has no attribute 'get'"),
     Demo.start, 0, []) /\
  ~ (forall request : pyval,
        exists response self' w' t,
          handle_request Demo.rt request Demo.start 0
          = (Ok response, self', w', t)).
Proof.
  split; [reflexivity |].
  intros H. destruct (H (PList [])) as (response & self' & w' & t & Hr).
  discriminate Hr.
Qed.

(** What the session loop does with such a line: the exception leaves
    the loop, [run] logs it, and the line after it is never read. *)
Example run_on_array_line :
  run Demo.rt ["[]"%string; Demo.ping_line] Demo.start 0
  = (Ok tt, Demo.start, 0,
     [Stderr "[INFO] Embedding server started";
      Stdin "[]";
      Stderr "[ERROR] Server error: 'list' object has no attribute 'get'";
      Stderr "[INFO] Embedding server stopped"]).
Proof. reflexivity. Qed.

Lemma ping_succeeds_in_every_state_witness :
  dict_lookup "action" Demo.ping_request = Some (PStr "ping") /\
  exists response,
    handle_request Demo.rt (PDict Demo.ping_request) Demo.loaded 1
    = (Ok response, Demo.loaded, 1, []) /\
    py_field "success" response = Some (PBool true) /\
    py_field "id" response = Some (PStr "3") /\
    py_field "pong" response = Some (PBool true) /\
    py_field "sentence_transformers_available" response = Some (PBool true).
Proof.
  split; [reflexivity |].
  apply (ping_succeeds_in_every_state Demo.rt Demo.ping_request Demo.loaded 1).
  reflexivity.
Defined.

Lemma unknown_action_is_named_witness :
  (exists response,
      handle_request Demo.rt
        (PDict [("id", PStr "9"); ("action", PStr "frobnicate")])
        Demo.start 0
      = (Ok response, Demo.start, 0, []) /\
      py_field "success" response = Some (PBool false) /\
      py_field "error" response = Some (PStr "Unknown action: frobnicate")) /\
  (exists response,
      handle_request Demo.rt (PDict [("id", PStr "9")]) Demo.start 0
      = (Ok response, Demo.start, 0, []) /\
      py_field "success" response = Some (PBool false) /\
      py_field "error" response = Some (PStr "Unknown action: unknown")).
Proof.
  split.
  - destruct (unknown_action_is_named Demo.rt
                [("id", PStr "9"); ("action", PStr "frobnicate")]
                Demo.start 0)
      as (response & Hr & Hs & _ & He & _);
      [discriminate | discriminate | discriminate |].
    exists response. repeat split; assumption.
  - destruct (unknown_action_is_named Demo.rt [("id", PStr "9")] Demo.start 0)
      as (response & Hr & Hs & _ & He & _);
      [discriminate | discriminate | discriminate |].
    exists response. repeat split; assumption.
Defined.

Lemma embed_without_texts_fails_witness :
  (exists response,
      handle_request Demo.rt
        (PDict [("id", PStr "7"); ("action", PStr "embed")]) Demo.loaded 1
      = (Ok response, Demo.loaded, 1, []) /\
      py_field "success" response = Some (PBool false) /\
      py_field "id" response = Some (PStr "7") /\
      py_field "error" response = Some (PStr "No texts provided")) /\
  (exists response,
      handle_request Demo.rt
        (PDict [("action", PStr "embed"); ("texts", PList [])]) Demo.start 0
      = (Ok response, Demo.start, 0, []) /\
      py_field "success" response = Some (PBool false) /\
      py_field "id" response = Some (PStr "unknown") /\
      py_field "error" response = Some (PStr "No texts provided")).
Proof.
  split.
  - apply (embed_without_texts_fails Demo.rt
             [("id", PStr "7"); ("action", PStr "embed")] Demo.loaded 1);
      reflexivity.
  - apply (embed_without_texts_fails Demo.rt
             [("action", PStr "embed"); ("texts", PList [])] Demo.start 0);
      reflexivity.
Defined.

Lemma load_model_failure_keeps_registry_witness :
  load_model Demo.rt (PStr "no-such-model") Demo.loaded 1
  = (Ok false, Demo.loaded, 1,
     [CallSentenceTransformer (PStr "no-such-model");
      Stderr "[ERROR] Model loading failed: no-such-model is not a valid model identifier"]) /\
  load_fails Demo.rt (PStr "no-such-model") Demo.loaded 1 /\
  (exists b : bool, @Ok bool false = Ok b) /\
  (load_fails Demo.rt (PStr "no-such-model") Demo.loaded 1 ->
   @Ok bool false = Ok false /\ Demo.loaded = Demo.loaded) /\
  (model Demo.loaded <> model Demo.loaded \/
   current_model_name Demo.loaded <> current_model_name Demo.loaded ->
   @Ok bool false = Ok true).
Proof.
  split; [reflexivity |]. split.
  - right. split; [reflexivity |]. eexists. exists 1. reflexivity.
  - apply (load_model_failure_keeps_registry Demo.rt (PStr "no-such-model")
             Demo.loaded 1 (Ok false) Demo.loaded 1
             [CallSentenceTransformer (PStr "no-such-model");
              Stderr "[ERROR] Model loading failed: no-such-model is not a valid model identifier"]).
    reflexivity.
Defined.

Lemma load_model_reuses_or_replaces_witness :
  let other : EmbeddingServer string :=
    {| model := Some "other"%string; current_model_name := PStr "other" |} in
  load_model Demo.rt (PStr "m") Demo.loaded 1 = (Ok true, Demo.loaded, 1, []) /\
  load_model Demo.rt (PStr "other") Demo.loaded 1
  = (Ok true, other, 2, [CallSentenceTransformer (PStr "other")]) /\
  (forall w2, load_model Demo.rt (PStr "other") other w2 = (Ok true, other, w2, [])) /\
  (forall texts w2,
      embed Demo.rt texts (PStr "other") other w2 =
      (fst (Demo.encode "other" texts w2), other,
       snd (Demo.encode "other" texts w2), [CallEncode "other"%string texts])).
Proof.
  apply (load_model_reuses_or_replaces Demo.rt "m" "other" Demo.loaded 1
           "m"%string "other"%string 2);
    try reflexivity; discriminate.
Defined.

Lemma embed_returns_one_vector_per_text_witness :
  exists embeddings response,
    handle_request Demo.rt (PDict Demo.embed_request) Demo.start 0
    = (Ok response, Demo.loaded, 1,
       [CallSentenceTransformer (PStr "m");
        CallEncode "m"%string (PList [PStr "hello"; PStr "world"])]) /\
    py_field "success" response = Some (PBool true) /\
    py_field "id" response = Some (PStr "1") /\
    py_field "embeddings" response = Some (PList embeddings) /\
    List.length embeddings = 2 /\
    py_field "count" response = Some (PInt 2) /\
    py_field "dimensions" response = Some (PInt 4) /\
    (forall i text,
        nth_error [PStr "hello"; PStr "world"] i = Some text ->
        nth_error embeddings i = Some (PList (Demo.vector_of text)) /\
        List.length (Demo.vector_of text) = 4).
Proof.
  apply (embed_returns_one_vector_per_text Demo.rt Demo.embed_request
           [PStr "hello"; PStr "world"] Demo.start 0 Demo.loaded 1
           [CallSentenceTransformer (PStr "m")] "m"%string Demo.vector_of 4 1);
    try reflexivity.
  - discriminate.
  - intros text _. destruct text; reflexivity.
Defined.

Lemma dimensions_is_length_of_first_vector_witness :
  handle_request Demo.rt_ragged (PDict Demo.embed_request) Demo.start 0
  = (Ok (embed_response (PStr "1") Demo.ragged (PInt 2) (PInt 2)),
     Demo.loaded, 1,
     [CallSentenceTransformer (PStr "m");
      CallEncode "m"%string (PList [PStr "hello"; PStr "world"])]).
Proof.
  assert (Hembed :
            embed Demo.rt_ragged (texts_of Demo.embed_request)
              (model_of Demo.embed_request) Demo.start 0
            = (Ok Demo.ragged, Demo.loaded, 1,
               [CallSentenceTransformer (PStr "m");
                CallEncode "m"%string (PList [PStr "hello"; PStr "world"])]))
    by reflexivity.
  destruct (dimensions_is_length_of_first_vector Demo.rt_ragged
              Demo.embed_request Demo.start 0 _ _ _ _
              eq_refl eq_refl Hembed)
    as (_ & Hfirst & _).
  exact (Hfirst (PList [PFloat Demo.half; PFloat Demo.half])
           [PList [PFloat Demo.half]] (PInt 2) eq_refl eq_refl).
Defined.

Lemma shutdown_ends_the_loop_witness :
  let response := shutdown_response (PStr "2") in
  handle_request Demo.rt (PDict Demo.shutdown_request) Demo.start 0
  = (Ok response, Demo.start, 0, []) /\
  py_field "success" response = Some (PBool true) /\
  py_field "shutdown" response = Some (PBool true) /\
  py_field "id" response = Some (PStr "2") /\
  for_lines Demo.rt
    ([Demo.ping_line; " "%string] ++ Demo.shutdown_line :: [Demo.ping_line])
    Demo.start 0
  = (Ok Broke, Demo.start, 0,
     [Stdin Demo.ping_line; Stdout (ping_response Demo.rt (PStr "3"));
      Stdin " "; Stdin Demo.shutdown_line; Stdout response]) /\
  run Demo.rt
    ([Demo.ping_line; " "%string] ++ Demo.shutdown_line :: [Demo.ping_line])
    Demo.start 0
  = (Ok tt, Demo.start, 0,
     [Stderr "[INFO] Embedding server started";
      Stdin Demo.ping_line; Stdout (ping_response Demo.rt (PStr "3"));
      Stdin " "; Stdin Demo.shutdown_line; Stdout response;
      Stderr "[INFO] Embedding server stopped"]).
Proof.
  apply (shutdown_ends_the_loop Demo.rt Demo.shutdown_request
           Demo.shutdown_line [Demo.ping_line; " "%string] [Demo.ping_line]
           Demo.start 0 Demo.start 0
           [Stdin Demo.ping_line; Stdout (ping_response Demo.rt (PStr "3"));
            Stdin " "]);
    try reflexivity.
  vm_compute. discriminate.
Defined.


(** The run of the last witness, in full: the broken line is answered
    and the ping after it as well. *)
Example run_on_broken_line :
  run Demo.rt [Demo.broken_line; Demo.ping_line] Demo.start 0
  = (Ok tt, Demo.start, 0,
     [Stderr "[INFO] Embedding server started";
      Stdin Demo.broken_line;
      Stderr ("[ERROR] Invalid JSON: " ++ exn_str Demo.broken_error);
      Stdout (invalid_json_response Demo.broken_error);
      Stdin Demo.ping_line;
      Stdout (ping_response Demo.rt (PStr "3"));
      Stderr "[INFO] Embedding server stopped"]).
Proof. reflexivity. Qed.

(** Without the library, a well-formed [embed] request is answered with
    a failure and nothing is constructed. *)
Example embed_without_library :
  handle_request Demo.rt_unavailable (PDict Demo.embed_request) Demo.start 0
  = (Ok (failure_response Demo.rt_unavailable (PStr "1")
           (Exn RuntimeError "sentence-transformers not available")),
     Demo.start, 0, []).
Proof. reflexivity. Qed.

(** * More of the server: what a request and a session can do *)

Section Session.

Context {Model World : Type}.
Variable rt : Runtime Model World.

Implicit Types (d : list (string * pyval)) (self : EmbeddingServer Model)
  (w : World) (t : list (event Model)).

(** ** The ways through [embed] *)

Lemma embed_cases texts model_name self w :
  (SENTENCE_TRANSFORMERS_AVAILABLE rt = false /\
   embed rt texts model_name self w =
   (Raise (Exn RuntimeError "sentence-transformers not available"),
    self, w, [])) \/
  (exists e w1,
      SENTENCE_TRANSFORMERS_AVAILABLE rt = true /\
      already_loaded rt self model_name = false /\
      SentenceTransformer rt model_name w = (Raise e, w1) /\
      embed rt texts model_name self w =
      (Raise (Exn RuntimeError
                ("Failed to load model: " ++ py_str rt model_name)),
       self, w1,
       [CallSentenceTransformer model_name;
        Stderr ("[ERROR] Model loading failed: " ++ exn_str e)])) \/
  (exists m,
      SENTENCE_TRANSFORMERS_AVAILABLE rt = true /\
      already_loaded rt self model_name = true /\
      model self = Some m /\
      embed rt texts model_name self w =
      (fst (encode_tolist rt m texts w), self,
       snd (encode_tolist rt m texts w), [CallEncode m texts])) \/
  (exists m w1,
      SENTENCE_TRANSFORMERS_AVAILABLE rt = true /\
      already_loaded rt self model_name = false /\
      SentenceTransformer rt model_name w = (Ok m, w1) /\
      embed rt texts model_name self w =
      (fst (encode_tolist rt m texts w1),
       {| model := Some m; current_model_name := model_name |},
       snd (encode_tolist rt m texts w1),
       [CallSentenceTransformer model_name; CallEncode m texts])).
Proof.
  destruct (SENTENCE_TRANSFORMERS_AVAILABLE rt) eqn:Ha.
  - right. destruct (already_loaded rt self model_name) eqn:Hl.
    + right. left.
      assert (Hm : exists m, model self = Some m).
      { unfold already_loaded in Hl. destruct (model self) as [m |];
          [exists m; reflexivity | discriminate]. }
      destruct Hm as [m Hm]. exists m. repeat split; try assumption.
      rewrite (embed_loaded rt texts model_name self w self w [] m
                 (load_model_reuse rt _ _ _ Ha Hl) Hm).
      destruct (encode_tolist rt m texts w). reflexivity.
    + destruct (SentenceTransformer rt model_name w) as [[m | e] w1] eqn:Hc.
      * right. right. exists m, w1. repeat split; try assumption.
        rewrite (embed_loaded rt texts model_name self w _ _ _ m
                   (load_model_fresh rt _ _ _ _ _ Ha Hl Hc) eq_refl).
        destruct (encode_tolist rt m texts w1). reflexivity.
      * left. exists e, w1. repeat split; try assumption.
        apply embed_not_loaded; [assumption |].
        apply load_model_raises; assumption.
  - left. split; [reflexivity |]. apply embed_unavailable. assumption.
Qed.

(** [embed] leaves one of the traces of a request. *)
Lemma embed_trace texts model_name self w :
  request_trace (trace_of (embed rt texts model_name self w)).
Proof.
  destruct (embed_cases texts model_name self w)
    as [[_ ->] | [(e & w1 & _ & _ & _ & ->) | [(m & _ & _ & _ & ->)
                                               | (m & w1 & _ & _ & _ & ->)]]];
    unfold request_trace, trace_of; simpl.
  - left. reflexivity.
  - right. right. left. eauto.
  - right. right. right. left. eauto.
  - right. right. right. right. eauto.
Qed.

(** ** What a request does to the server *)

(** An [embed] request with texts does to the server, the world and the
    trace what its call to [embed] does. *)
Lemma handle_request_embed_effects d self w :
  action_of d = PStr "embed" ->
  py_truthy (texts_of d) = true ->
  self_after (handle_request rt (PDict d) self w)
  = self_after (embed rt (texts_of d) (model_of d) self w) /\
  world_after (handle_request rt (PDict d) self w)
  = world_after (embed rt (texts_of d) (model_of d) self w) /\
  trace_of (handle_request rt (PDict d) self w)
  = trace_of (embed rt (texts_of d) (model_of d) self w).
Proof.
  intros Ha Ht. rewrite handle_request_dict. unfold try_except.
  rewrite Ha, dispatch_embed_texts by assumption.
  destruct (embed rt (texts_of d) (model_of d) self w) as [[[r s1] w1] t1].
  destruct r as [embeddings | e].
  - destruct (dimensions_of embeddings) as [dimensions | e].
    + destruct (py_len embeddings) as [count | e];
        unfold self_after, world_after, trace_of; simpl;
        rewrite ?app_nil_r; repeat split; reflexivity.
    + unfold self_after, world_after, trace_of; simpl;
        rewrite ?app_nil_r; repeat split; reflexivity.
  - unfold self_after, world_after, trace_of; simpl;
      rewrite ?app_nil_r; repeat split; reflexivity.
Qed.

(** A request either leaves everything as it is, or it is an [embed]
    request with texts and does to the server, the world and the trace
    what its call to [embed] does. *)
Lemma handle_request_effects request self w :
  (self_after (handle_request rt request self w) = self /\
   world_after (handle_request rt request self w) = w /\
   trace_of (handle_request rt request self w) = []) \/
  (exists d,
      request = PDict d /\
      action_of d = PStr "embed" /\
      py_truthy (texts_of d) = true /\
      self_after (handle_request rt request self w)
      = self_after (embed rt (texts_of d) (model_of d) self w) /\
      world_after (handle_request rt request self w)
      = world_after (embed rt (texts_of d) (model_of d) self w) /\
      trace_of (handle_request rt request self w)
      = trace_of (embed rt (texts_of d) (model_of d) self w)).
Proof.
  destruct request as [| b | z | f | s | l | d];
    try (left; repeat split; reflexivity).
  destruct (py_eq (action_of d) (PStr "embed")) eqn:Ee.
  { apply py_eq_str_iff in Ee.
    destruct (py_truthy (texts_of d)) eqn:Ht.
    - right. exists d. split; [reflexivity |]. split; [assumption |].
      split; [assumption |].
      apply handle_request_embed_effects; assumption.
    - left. rewrite handle_request_dict. unfold try_except.
      rewrite Ee, dispatch_embed_no_texts by assumption.
      repeat split; reflexivity. }
  left. rewrite handle_request_dict. unfold try_except.
  destruct (py_eq (action_of d) (PStr "ping")) eqn:Ep.
  { apply py_eq_str_iff in Ep. rewrite Ep, dispatch_ping.
    repeat split; reflexivity. }
  destruct (py_eq (action_of d) (PStr "shutdown")) eqn:Es.
  { apply py_eq_str_iff in Es. rewrite Es, dispatch_shutdown.
    repeat split; reflexivity. }
  unfold dispatch. rewrite Ep, Ee, Es.
  repeat split; reflexivity.
Qed.

Lemma request_trace_quiet t :
  request_trace t -> stdout_of t = [] /\ stdin_of t = [].
Proof.
  intros [-> | [(n & ->) | [(n & l & ->) | [(m & x & ->) | (n & m & x & ->)]]]];
    split; reflexivity.
Qed.

Lemma handle_request_trace request self w :
  request_trace (trace_of (handle_request rt request self w)).
Proof.
  destruct (handle_request_effects request self w)
    as [(_ & _ & ->) | (d & _ & _ & _ & _ & _ & ->)].
  - left. reflexivity.
  - apply embed_trace.
Qed.

Lemma stdout_of_app t1 t2 :
  stdout_of (t1 ++ t2) = (stdout_of t1 ++ stdout_of t2)%list.
Proof.
  induction t1 as [| e t1 IH]; [reflexivity |].
  destruct e; simpl; rewrite IH; reflexivity.
Qed.

Lemma stdin_of_app t1 t2 :
  stdin_of (t1 ++ t2) = (stdin_of t1 ++ stdin_of t2)%list.
Proof.
  induction t1 as [| e t1 IH]; [reflexivity |].
  destruct e; simpl; rewrite IH; reflexivity.
Qed.

(** ** The responses *)

(** What [dispatch] returns, by action. *)
Lemma dispatch_Ok_shape d action self w response self1 w1 t1 :
  dispatch rt (PDict d) (id_of d) action self w = (Ok response, self1, w1, t1) ->
  (action = PStr "ping" /\ response = ping_response rt (id_of d)) \/
  (action = PStr "shutdown" /\ response = shutdown_response (id_of d) /\
   self1 = self /\ w1 = w /\ t1 = []) \/
  (action = PStr "embed" /\
   exists embeddings dimensions count,
     response = embed_response (id_of d) embeddings dimensions count).
Proof.
  intros H.
  destruct (py_eq action (PStr "ping")) eqn:Ep.
  { apply py_eq_str_iff in Ep. subst action. rewrite dispatch_ping in H.
    injection H as <- _ _ _. left. split; reflexivity. }
  destruct (py_eq action (PStr "embed")) eqn:Ee.
  { apply py_eq_str_iff in Ee. subst action. right. right.
    split; [reflexivity |].
    destruct (py_truthy (texts_of d)) eqn:Ht.
    - rewrite dispatch_embed_texts in H by assumption.
      destruct (embed rt (texts_of d) (model_of d) self w) as [[[r s] w'] t].
      destruct r as [embeddings | e]; [| discriminate].
      destruct (dimensions_of embeddings) as [dimensions | e];
        [| discriminate].
      destruct (py_len embeddings) as [count | e]; [| discriminate].
      injection H as <- _ _ _. eauto.
    - rewrite dispatch_embed_no_texts in H by assumption. discriminate. }
  destruct (py_eq action (PStr "shutdown")) eqn:Es.
  { apply py_eq_str_iff in Es. subst action. rewrite dispatch_shutdown in H.
    injection H as <- <- <- <-. right. left. repeat split; reflexivity. }
  unfold dispatch in H. rewrite Ep, Ee, Es in H. discriminate.
Qed.

(** The response to a [dict]: a well-formed dictionary, which carries a
    true [shutdown] only when the action is [shutdown]. *)
Lemma handle_request_response d self w :
  exists fields,
    outcome (handle_request rt (PDict d) self w) = Ok (PDict fields) /\
    well_formed_response (PDict fields) = true /\
    py_field "id" (PDict fields) = Some (id_of d) /\
    (py_truthy (dict_get fields "shutdown" PNone) = true ->
     action_of d = PStr "shutdown" /\
     handle_request rt (PDict d) self w
     = (Ok (shutdown_response (id_of d)), self, w, [])).
Proof.
  destruct (dispatch rt (PDict d) (id_of d) (action_of d) self w)
    as [[[r self1] w1] t1] eqn:Hd.
  destruct r as [response | e].
  - rewrite (handle_request_returns rt _ _ _ _ _ _ _ Hd).
    destruct (dispatch_Ok_shape _ _ _ _ _ _ _ _ Hd)
      as [[Ha ->] | [(Ha & -> & -> & -> & ->) | (Ha & E & n & c & ->)]].
    + eexists. split; [reflexivity |]. split; [reflexivity |].
      split; [reflexivity |]. intros H. discriminate H.
    + eexists. split; [reflexivity |]. split; [reflexivity |].
      split; [reflexivity |]. intros _. split; [assumption | reflexivity].
    + eexists. split; [reflexivity |]. split; [reflexivity |].
      split; [reflexivity |]. intros H. discriminate H.
  - rewrite (handle_request_catches rt _ _ _ _ _ _ _ Hd).
    eexists. split; [reflexivity |]. split; [reflexivity |].
    split; [reflexivity |]. intros H. discriminate H.
Qed.

(** ** One turn of the loop, by cases *)

Lemma iteration_cases line self w :
  (is_request_line line = false /\
   iteration rt line self w = (Ok false, self, w, [])) \/
  (is_request_line line = true /\
   exists e,
     json_loads rt (strip line) = Raise e /\
     is_JSONDecodeError e = true /\
     iteration rt line self w =
     (Ok false, self, w,
      [Stderr ("[ERROR] Invalid JSON: " ++ exn_str e);
       Stdout (invalid_json_response e)])) \/
  (is_request_line line = true /\
   exists e,
     json_loads rt (strip line) = Raise e /\
     is_JSONDecodeError e = false /\
     iteration rt line self w = (Raise e, self, w, [])) \/
  (is_request_line line = true /\
   exists request,
     json_loads rt (strip line) = Ok request /\
     (forall d, request <> PDict d) /\
     iteration rt line self w =
     (Raise (Exn AttributeError
               ("'" ++ type_name request ++ "' object has no attribute 'get'")),
      self, w, [])) \/
  (is_request_line line = true /\
   exists d fields self1 w1 t1,
     json_loads rt (strip line) = Ok (PDict d) /\
     handle_request rt (PDict d) self w = (Ok (PDict fields), self1, w1, t1) /\
     iteration rt line self w =
     (Ok (py_truthy (dict_get fields "shutdown" PNone)), self1, w1,
      (t1 ++ [Stdout (PDict fields)])%list)).
Proof.
  unfold is_request_line.
  destruct (String.eqb (strip line) EmptyString) eqn:Hb.
  { left. split; [reflexivity |]. apply iteration_blank.
    apply String.eqb_eq. assumption. }
  right. apply String.eqb_neq in Hb.
  destruct (json_loads rt (strip line)) as [request | e] eqn:Hl.
  - right. right.
    destruct request as [| b | z | f | s | l | d];
      try (left; split; [reflexivity |]; eexists; split; [reflexivity |];
           split; [intros d; discriminate |];
           apply (iteration_escapes rt _ _ _ _ _ _ _ _ Hb Hl);
           [apply handle_request_not_dict; intros d; discriminate
           | reflexivity]).
    right. split; [reflexivity |].
    destruct (handle_request_response d self w) as (fields & Ho & _).
    destruct (handle_request rt (PDict d) self w) as [[[r s1] w1] t1] eqn:Hh.
    unfold outcome in Ho. simpl in Ho. subst r.
    exists d, fields, s1, w1, t1. split; [reflexivity |].
    split; [assumption |].
    apply (iteration_answer rt _ _ _ _ _ _ _ _ Hb Hl Hh).
  - destruct (is_JSONDecodeError e) eqn:He.
    + left. split; [reflexivity |]. exists e. repeat split; try assumption.
      apply iteration_invalid; assumption.
    + right. left. split; [reflexivity |]. exists e.
      repeat split; try assumption.
      apply String.eqb_neq in Hb.
      unfold iteration, try_except_JSONDecodeError, bind, lift.
      rewrite Hb, Hl. simpl. rewrite He. reflexivity.
Qed.

(** [run] around the loop: the trace of [run] is the start line, the
    trace of the loop, the error line if the loop raised, and the stop
    line; the server and the world are those the loop ended with. *)
Lemma run_cases stdin self w :
  let loop := for_lines rt stdin self w in
  exists tail,
    run rt stdin self w =
    (Ok tt, self_after loop, world_after loop,
     (Stderr "[INFO] Embedding server started" :: trace_of loop
      ++ tail ++ [Stderr "[INFO] Embedding server stopped"])%list) /\
    match outcome loop with
    | Ok _ => tail = []
    | Raise e => tail = [Stderr ("[ERROR] Server error: " ++ exn_str e)]
    end.
Proof.
  simpl. destruct (for_lines rt stdin self w) as [[[r s1] w1] t1] eqn:H.
  destruct r as [how | e].
  - exists []. rewrite (run_loop_ends rt _ _ _ _ _ _ _ H).
    split; reflexivity.
  - exists [Stderr ("[ERROR] Server error: " ++ exn_str e)].
    rewrite (run_loop_raises rt _ _ _ _ _ _ _ H).
    split; reflexivity.
Qed.

(** What one turn reads and prints: it reads nothing itself, prints one
    well-formed response for a request line on which it does not raise,
    and nothing otherwise. *)
Lemma iteration_summary line self w :
  let turn := iteration rt line self w in
  stdin_of (trace_of turn) = [] /\
  Forall (fun v => well_formed_response v = true) (stdout_of (trace_of turn)) /\
  match outcome turn with
  | Ok _ =>
      List.length (stdout_of (trace_of turn))
      = if is_request_line line then 1 else 0
  | Raise _ => stdout_of (trace_of turn) = [] /\ is_request_line line = true
  end.
Proof.
  simpl.
  destruct (iteration_cases line self w)
    as [[Hb ->] | [(Hb & e & _ & _ & ->) | [(Hb & e & _ & _ & ->)
       | [(Hb & request & _ & _ & ->)
         | (Hb & d & fields & s1 & w1 & t1 & _ & Hh & ->)]]]];
    unfold outcome, trace_of; simpl; rewrite Hb.
  - repeat split; constructor.
  - repeat split. constructor; [reflexivity | constructor].
  - repeat split; constructor.
  - repeat split; constructor.
  - pose proof (handle_request_trace (PDict d) self w) as Ht.
    rewrite Hh in Ht. apply request_trace_quiet in Ht.
    unfold trace_of in Ht. simpl in Ht. destruct Ht as [Hout Hin].
    destruct (handle_request_response d self w) as (fields' & Ho & Hwf & _).
    rewrite Hh in Ho. unfold outcome in Ho. simpl in Ho.
    injection Ho as <-.
    rewrite stdin_of_app, stdout_of_app, Hout, Hin. simpl.
    repeat split. constructor; [assumption | constructor].
Qed.

(** ** A request *)

(** A request never reads or prints, and what it leaves in the trace is
    at most one constructor call and at most one call to [encode], the
    constructor first. *)
Theorem request_calls_the_library_at_most_twice request self w :
  let t := trace_of (handle_request rt request self w) in
  request_trace t /\ stdout_of t = [] /\ stdin_of t = [] /\
  (List.length (calls_of t) <= 2)%nat.
Proof.
  simpl. pose proof (handle_request_trace request self w) as H.
  split; [assumption |].
  destruct (request_trace_quiet _ H) as [Hout Hin].
  split; [assumption |]. split; [assumption |].
  destruct H as [-> | [(n & ->) | [(n & l & ->) | [(m & x & ->)
                                                  | (n & m & x & ->)]]]];
    simpl; lia.
Qed.

(** Without the library an [embed] request with texts is refused by
    [embed] itself: the error is that of its first test, not that of a
    failed load, and nothing is constructed or logged. *)
Theorem embed_request_without_library d self w :
  SENTENCE_TRANSFORMERS_AVAILABLE rt = false ->
  dict_lookup "action" d = Some (PStr "embed") ->
  py_truthy (texts_of d) = true ->
  handle_request rt (PDict d) self w =
  (Ok (failure_response rt (id_of d)
         (Exn RuntimeError "sentence-transformers not available")),
   self, w, []).
Proof.
  intros Hu Ha Ht. apply action_of_lookup in Ha.
  apply handle_request_catches. rewrite Ha.
  rewrite dispatch_embed_texts, embed_unavailable by assumption.
  reflexivity.
Qed.

(** When the model of an [embed] request does not load, the response
    names the model and not the cause: the cause goes to the error log
    only, and the server keeps what it held. *)
Theorem embed_request_load_failure d self w e w1 :
  SENTENCE_TRANSFORMERS_AVAILABLE rt = true ->
  dict_lookup "action" d = Some (PStr "embed") ->
  py_truthy (texts_of d) = true ->
  already_loaded rt self (model_of d) = false ->
  SentenceTransformer rt (model_of d) w = (Raise e, w1) ->
  handle_request rt (PDict d) self w =
  (Ok (failure_response rt (id_of d)
         (Exn RuntimeError
            ("Failed to load model: " ++ py_str rt (model_of d)))),
   self, w1,
   [CallSentenceTransformer (model_of d);
    Stderr ("[ERROR] Model loading failed: " ++ exn_str e)]).
Proof.
  intros Hav Ha Ht Hl Hc. apply action_of_lookup in Ha.
  apply handle_request_catches. rewrite Ha.
  rewrite dispatch_embed_texts by assumption.
  rewrite (embed_not_loaded rt _ _ _ _ _ _ _ Hav
             (load_model_raises rt _ _ _ _ _ Hav Hl Hc)).
  reflexivity.
Qed.

(** When a model has just been loaded and [encode] raises, the response
    is a failure with the message of that exception, and the server
    keeps the new model under the new name: nothing is undone. *)
Theorem encode_failure_keeps_the_new_model d self w m w1 e w2 :
  SENTENCE_TRANSFORMERS_AVAILABLE rt = true ->
  dict_lookup "action" d = Some (PStr "embed") ->
  py_truthy (texts_of d) = true ->
  already_loaded rt self (model_of d) = false ->
  SentenceTransformer rt (model_of d) w = (Ok m, w1) ->
  encode_tolist rt m (texts_of d) w1 = (Raise e, w2) ->
  handle_request rt (PDict d) self w =
  (Ok (failure_response rt (id_of d) e),
   {| model := Some m; current_model_name := model_of d |}, w2,
   [CallSentenceTransformer (model_of d); CallEncode m (texts_of d)]).
Proof.
  intros Hav Ha Ht Hl Hc He. apply action_of_lookup in Ha.
  apply handle_request_catches. rewrite Ha.
  rewrite dispatch_embed_texts by assumption.
  rewrite (embed_loaded rt _ _ _ _ _ _ _ _
             (load_model_fresh rt _ _ _ _ _ Hav Hl Hc) eq_refl).
  rewrite He. reflexivity.
Qed.

(** After an [embed] request that loaded the model named [n], whatever
    became of its encoding, a second [embed] request for [n] constructs
    nothing: its whole trace is one call to [encode] on the held model. *)
Theorem second_embed_request_reuses_the_model
    d1 d2 (n : string) self w m w1 :
  SENTENCE_TRANSFORMERS_AVAILABLE rt = true ->
  model_truthy rt m = true ->
  dict_lookup "action" d1 = Some (PStr "embed") ->
  dict_lookup "action" d2 = Some (PStr "embed") ->
  py_truthy (texts_of d1) = true ->
  py_truthy (texts_of d2) = true ->
  model_of d1 = PStr n ->
  model_of d2 = PStr n ->
  already_loaded rt self (PStr n) = false ->
  SentenceTransformer rt (PStr n) w = (Ok m, w1) ->
  let first := handle_request rt (PDict d1) self w in
  let second :=
    handle_request rt (PDict d2) (self_after first) (world_after first) in
  trace_of first
  = [CallSentenceTransformer (PStr n); CallEncode m (texts_of d1)] /\
  self_after first = {| model := Some m; current_model_name := PStr n |} /\
  trace_of second = [CallEncode m (texts_of d2)] /\
  self_after second = self_after first.
Proof.
  intros Hav Htruthy Ha1 Ha2 Ht1 Ht2 Hn1 Hn2 Hl Hc.
  apply action_of_lookup in Ha1, Ha2. cbv zeta.
  destruct (handle_request_embed_effects d1 self w Ha1 Ht1)
    as (Hs1 & Hw1 & Htr1).
  rewrite Hn1 in Hs1, Hw1, Htr1.
  rewrite (embed_loaded rt _ _ _ _ _ _ _ _
             (load_model_fresh rt _ _ _ _ _ Hav Hl Hc) eq_refl)
    in Hs1, Hw1, Htr1.
  destruct (encode_tolist rt m (texts_of d1) w1) as [r1 w2].
  set (held := {| model := Some m; current_model_name := PStr n |}) in *.
  assert (Hs1' : self_after (handle_request rt (PDict d1) self w) = held)
    by exact Hs1.
  assert (Hw1' : world_after (handle_request rt (PDict d1) self w) = w2)
    by exact Hw1.
  assert (Htr1' : trace_of (handle_request rt (PDict d1) self w)
                  = [CallSentenceTransformer (PStr n);
                     CallEncode m (texts_of d1)])
    by exact Htr1.
  rewrite Hs1', Hw1', Htr1'.
  assert (Hheld : already_loaded rt held (PStr n) = true).
  { unfold already_loaded, held. simpl. rewrite Htruthy.
    apply String.eqb_refl. }
  destruct (handle_request_embed_effects d2 held w2 Ha2 Ht2)
    as (Hs2 & _ & Htr2).
  rewrite Hn2 in Hs2, Htr2.
  rewrite (embed_loaded rt (texts_of d2) (PStr n) held w2 held w2 [] m
             (load_model_reuse rt _ _ _ Hav Hheld) eq_refl) in Hs2, Htr2.
  destruct (encode_tolist rt m (texts_of d2) w2) as [r2 w3].
  assert (Hs2' : self_after (handle_request rt (PDict d2) held w2) = held)
    by exact Hs2.
  assert (Htr2' : trace_of (handle_request rt (PDict d2) held w2)
                  = [CallEncode m (texts_of d2)])
    by exact Htr2.
  rewrite Hs2', Htr2'. repeat split; reflexivity.
Qed.

(** The default model stands in for an absent [model] only: a request
    without the key loads [all-MiniLM-L6-v2], and a request whose
    [model] is [null] hands [None] to the constructor. *)
Theorem default_model_only_when_absent d self w :
  SENTENCE_TRANSFORMERS_AVAILABLE rt = true ->
  dict_lookup "action" d = Some (PStr "embed") ->
  py_truthy (texts_of d) = true ->
  model self = None ->
  (dict_lookup "model" d = None ->
   exists t, trace_of (handle_request rt (PDict d) self w)
             = CallSentenceTransformer (PStr "all-MiniLM-L6-v2") :: t) /\
  (dict_lookup "model" d = Some PNone ->
   exists t, trace_of (handle_request rt (PDict d) self w)
             = CallSentenceTransformer PNone :: t).
Proof.
  intros Hav Ha Ht Hm.
  assert (Hl : forall name, already_loaded rt self name = false).
  { intros name. unfold already_loaded. rewrite Hm. reflexivity. }
  assert (H : exists t, trace_of (handle_request rt (PDict d) self w)
                        = CallSentenceTransformer (model_of d) :: t).
  { apply action_of_lookup in Ha.
    destruct (handle_request_embed_effects d self w Ha Ht) as (_ & _ & ->).
    destruct (embed_cases (texts_of d) (model_of d) self w)
      as [[Hu _] | [(e & w1 & _ & _ & _ & ->) | [(m & _ & Hl' & _)
                                                | (m & w1 & _ & _ & _ & ->)]]].
    - congruence.
    - unfold trace_of. simpl. eauto.
    - rewrite Hl in Hl'. discriminate.
    - unfold trace_of. simpl. eauto. }
  unfold model_of, dict_get in H.
  split; intros Hk; rewrite Hk in H; exact H.
Qed.

(** ** A session *)


Lemma for_lines_well_formed stdin self w :
  Forall (fun v => well_formed_response v = true)
    (stdout_of (trace_of (for_lines rt stdin self w))).
Proof.
  revert self w.
  induction stdin as [| line rest IH]; intros self w; [constructor |].
  rewrite for_lines_cons.
  pose proof (iteration_summary line self w) as Hs. cbv zeta in Hs.
  destruct Hs as (_ & Hwf & _).
  destruct (iteration rt line self w) as [[[r s1] w1] t1].
  unfold trace_of in Hwf. simpl in Hwf.
  destruct r as [[|] | e]; try (unfold trace_of; simpl; assumption).
  specialize (IH s1 w1).
  destruct (for_lines rt rest s1 w1) as [[[r2 s2] w2] t2].
  unfold trace_of in *. simpl in *.
  rewrite stdout_of_app. apply Forall_app. split; assumption.
Qed.

(** [run] returns whatever the input: its trace opens with the start
    line and closes with the stop line, and between them the lines read
    and the values printed are exactly those of the loop, so that no log
    line reaches the standard output. *)
Theorem run_brackets_the_session stdin self w :
  let loop := for_lines rt stdin self w in
  exists middle,
    run rt stdin self w =
    (Ok tt, self_after loop, world_after loop,
     (Stderr "[INFO] Embedding server started" :: middle
      ++ [Stderr "[INFO] Embedding server stopped"])%list) /\
    stdout_of middle = stdout_of (trace_of loop) /\
    stdin_of middle = stdin_of (trace_of loop).
Proof.
  cbv zeta. destruct (run_cases stdin self w) as (tail & Hrun & Htail).
  exists (trace_of (for_lines rt stdin self w) ++ tail)%list.
  rewrite Hrun, <- app_assoc. split; [reflexivity |].
  rewrite stdout_of_app, stdin_of_app.
  destruct (outcome (for_lines rt stdin self w)); subst tail; simpl;
    rewrite !app_nil_r; split; reflexivity.
Qed.

(** Everything [run] prints on the standard output is a response with a
    boolean [success] and an [error] that is [None] exactly when
    [success] is true. *)
Theorem printed_responses_are_well_formed stdin self w :
  Forall (fun v => well_formed_response v = true)
    (stdout_of (trace_of (run rt stdin self w))).
Proof.
  destruct (run_cases stdin self w) as (tail & Hrun & Htail).
  rewrite Hrun. unfold trace_of at 1. simpl.
  rewrite !stdout_of_app. simpl. rewrite app_nil_r.
  assert (Hquiet : stdout_of tail = []).
  { destruct (outcome (for_lines rt stdin self w)); subst tail; reflexivity. }
  rewrite Hquiet, app_nil_r. apply for_lines_well_formed.
Qed.

(** The lines are read in order, one by one from the first: what was
    read is a prefix of the input, and the whole input when the loop
    ends by exhaustion. *)
Theorem lines_are_read_in_order stdin self w :
  let loop := for_lines rt stdin self w in
  exists unread,
    stdin = (stdin_of (trace_of loop) ++ unread)%list /\
    (outcome loop = Ok Exhausted -> unread = []).
Proof.
  cbv zeta. revert self w.
  induction stdin as [| line rest IH]; intros self w.
  - exists []. split; reflexivity.
  - rewrite for_lines_cons.
    pose proof (iteration_summary line self w) as Hs. cbv zeta in Hs.
    destruct Hs as (Hin & _ & _).
    destruct (iteration rt line self w) as [[[r s1] w1] t1].
    unfold trace_of in Hin. simpl in Hin.
    destruct r as [[|] | e].
    + exists rest. unfold outcome, trace_of. simpl. rewrite Hin.
      split; [reflexivity | discriminate].
    + destruct (IH s1 w1) as (unread & Heq & Hex).
      destruct (for_lines rt rest s1 w1) as [[[r2 s2] w2] t2].
      unfold outcome, trace_of in *. simpl in *.
      exists unread. rewrite stdin_of_app, Hin. simpl.
      split; [f_equal; assumption | assumption].
    + exists rest. unfold outcome, trace_of. simpl. rewrite Hin.
      split; [reflexivity | discriminate].
Qed.

(** The loop breaks on a [shutdown] request and on nothing else: when it
    ended by [break], the last line read decoded to a request whose
    action is [shutdown], and the last thing printed is its response. *)
Theorem loop_breaks_only_on_shutdown stdin self w :
  outcome (for_lines rt stdin self w) = Ok Broke ->
  exists before line rest d t0,
    stdin = (before ++ line :: rest)%list /\
    json_loads rt (strip line) = Ok (PDict d) /\
    action_of d = PStr "shutdown" /\
    trace_of (for_lines rt stdin self w)
    = (t0 ++ [Stdin line; Stdout (shutdown_response (id_of d))])%list.
Proof.
  revert self w.
  induction stdin as [| line rest IH]; intros self w; [discriminate |].
  rewrite for_lines_cons.
  assert (Hnext : forall s1 w1 t1,
             outcome (let '(r, self2, w2, t2) := for_lines rt rest s1 w1 in
                      (r, self2, w2, Stdin line :: (t1 ++ t2)%list))
             = Ok Broke ->
             exists before line0 rest0 d t0,
               line :: rest = (before ++ line0 :: rest0)%list /\
               json_loads rt (strip line0) = Ok (PDict d) /\
               action_of d = PStr "shutdown" /\
               trace_of (let '(r, self2, w2, t2) := for_lines rt rest s1 w1 in
                         (r, self2, w2, Stdin line :: (t1 ++ t2)%list))
               = (t0 ++ [Stdin line0;
                         Stdout (shutdown_response (id_of d))])%list).
  { intros s1 w1 t1 H. specialize (IH s1 w1).
    destruct (for_lines rt rest s1 w1) as [[[r2 s2] w2] t2].
    unfold outcome, trace_of in *. simpl in *.
    destruct (IH H) as (before & line0 & rest0 & d & t0 & -> & Hl & Ha & ->).
    exists (line :: before), line0, rest0, d, (Stdin line :: t1 ++ t0)%list.
    repeat split; try assumption.
    simpl. rewrite <- app_assoc. reflexivity. }
  destruct (iteration_cases line self w)
    as [[_ ->] | [(_ & e & _ & _ & ->) | [(_ & e & _ & _ & ->)
       | [(_ & request & _ & _ & ->)
         | (_ & d & fields & s1 & w1 & t1 & Hl & Hh & ->)]]]];
    try (apply Hnext); try discriminate.
  destruct (py_truthy (dict_get fields "shutdown" PNone)) eqn:Hflag;
    [| apply Hnext].
  intros _.
  destruct (handle_request_response d self w) as (fields' & Ho & _ & _ & Hsh).
  rewrite Hh in Ho. unfold outcome in Ho. simpl in Ho. injection Ho as <-.
  destruct (Hsh Hflag) as [Ha Heq]. rewrite Hh in Heq.
  injection Heq as -> _ _ ->.
  exists [], line, rest, d, []. repeat split; assumption.
Qed.

(** Only an [embed] request with texts can reach the library: a session
    without one, whatever else its lines are, calls neither the
    constructor nor [encode] and ends with the server and the world it
    started with. *)
Theorem session_without_embed_leaves_the_registry stdin self w :
  (forall line d,
      In line stdin ->
      json_loads rt (strip line) = Ok (PDict d) ->
      action_of d = PStr "embed" ->
      py_truthy (texts_of d) = false) ->
  let loop := for_lines rt stdin self w in
  self_after loop = self /\ world_after loop = w /\
  calls_of (trace_of loop) = [].
Proof.
  cbv zeta. induction stdin as [| line rest IH]; intros Hno.
  - repeat split; reflexivity.
  - assert (IH' : self_after (for_lines rt rest self w) = self /\
                  world_after (for_lines rt rest self w) = w /\
                  calls_of (trace_of (for_lines rt rest self w)) = []).
    { apply IH. intros line0 d Hin. apply Hno. right. assumption. }
    clear IH. rewrite for_lines_cons.
    assert (Hturn : exists r t1,
               iteration rt line self w = (r, self, w, t1) /\
               calls_of t1 = []).
    { destruct (iteration_cases line self w)
        as [[_ ->] | [(_ & e & _ & _ & ->) | [(_ & e & _ & _ & ->)
           | [(_ & request & _ & _ & ->)
             | (_ & d & fields & s1 & w1 & t1 & Hl & Hh & ->)]]]];
        try (eexists; eexists; split; reflexivity).
      destruct (handle_request_effects (PDict d) self w)
        as [(Hs & Hw & Ht) | (d' & [= <-] & Ha & Htruthy & _)].
      - rewrite Hh in Hs, Hw, Ht.
        unfold self_after, world_after, trace_of in Hs, Hw, Ht.
        simpl in Hs, Hw, Ht. subst s1 w1 t1.
        eexists. eexists. split; reflexivity.
      - rewrite (Hno line d (or_introl eq_refl) Hl Ha) in Htruthy.
        discriminate. }
    destruct Hturn as (r & t1 & -> & Hcalls).
    destruct r as [[|] | e].
    + unfold self_after, world_after, trace_of. simpl.
      repeat split; try reflexivity. assumption.
    + destruct (for_lines rt rest self w) as [[[r2 s2] w2] t2].
      unfold self_after, world_after, trace_of in *. simpl in *.
      destruct IH' as (-> & -> & Hc2).
      repeat split; try reflexivity.
      unfold calls_of in *. rewrite filter_app, Hcalls, Hc2. reflexivity.
    + unfold self_after, world_after, trace_of. simpl.
      repeat split; try reflexivity. assumption.
Qed.

Lemma all_space_lstrip line : all_space line = true -> lstrip line = EmptyString.
Proof.
  induction line as [| c line IH]; [reflexivity |]. simpl.
  intros H. apply andb_true_iff in H. destruct H as [Hc Hs].
  rewrite Hc. apply IH. assumption.
Qed.

(** A line of white space is skipped: it is read, nothing is decoded or
    printed for it, and the loop goes on as if it were not there. *)
Theorem white_line_is_skipped line rest self w :
  all_space line = true ->
  for_lines rt (line :: rest) self w =
  (let '(r, self', w', t) := for_lines rt rest self w in
   (r, self', w', Stdin line :: t)).
Proof.
  intros H. apply blank_line_is_skipped. unfold strip.
  rewrite (all_space_lstrip _ H). reflexivity.
Qed.

(** An exception of the decoder that is no [JSONDecodeError] is not
    caught in the loop: it ends the session, logged by [run], and the
    line gets no response. *)
Theorem other_decoder_exception_ends_the_session line rest self w e :
  strip line <> EmptyString ->
  json_loads rt (strip line) = Raise e ->
  is_JSONDecodeError e = false ->
  run rt (line :: rest) self w =
  (Ok tt, self, w,
   [Stderr "[INFO] Embedding server started";
    Stdin line;
    Stderr ("[ERROR] Server error: " ++ exn_str e);
    Stderr "[INFO] Embedding server stopped"]).
Proof.
  intros Hne Hl He.
  assert (Hloop : for_lines rt (line :: rest) self w
                  = (Raise e, self, w, [Stdin line])).
  { rewrite for_lines_cons.
    destruct (iteration_cases line self w)
      as [[Hb _] | [(_ & e' & Hl' & He' & _) | [(_ & e' & Hl' & _ & ->)
         | [(_ & request & Hl' & _) | (_ & d & f & s & w' & t & Hl' & _)]]]].
    - unfold is_request_line in Hb. apply negb_false_iff in Hb.
      apply String.eqb_eq in Hb. contradiction.
    - congruence.
    - rewrite Hl in Hl'. injection Hl' as <-. reflexivity.
    - congruence.
    - congruence. }
  rewrite (run_loop_raises rt _ _ _ _ _ _ _ Hloop). reflexivity.
Qed.

(** ** The registry over a whole run *)

Lemma embed_constructed texts model_name self w :
  constructed rt self ->
  constructed rt (self_after (embed rt texts model_name self w)).
Proof.
  intros Hok.
  destruct (embed_cases texts model_name self w)
    as [[_ ->] | [(e & w1 & _ & _ & _ & ->) | [(m & _ & _ & _ & ->)
                                              | (m & w1 & _ & _ & Hc & ->)]]];
    try exact Hok.
  intros m' [= <-]. exists w, w1. exact Hc.
Qed.

Lemma handle_request_constructed request self w :
  constructed rt self ->
  constructed rt (self_after (handle_request rt request self w)).
Proof.
  intros Hok.
  destruct (handle_request_effects request self w)
    as [(-> & _) | (d & _ & _ & _ & -> & _)].
  - assumption.
  - apply embed_constructed. assumption.
Qed.

Lemma for_lines_constructed stdin self w :
  constructed rt self ->
  constructed rt (self_after (for_lines rt stdin self w)).
Proof.
  revert self w.
  induction stdin as [| line rest IH]; intros self w Hok; [exact Hok |].
  rewrite for_lines_cons.
  assert (Hturn : constructed rt (self_after (iteration rt line self w))).
  { destruct (iteration_cases line self w)
      as [[_ ->] | [(_ & e & _ & _ & ->) | [(_ & e & _ & _ & ->)
         | [(_ & request & _ & _ & ->)
           | (_ & d & fields & s1 & w1 & t1 & _ & Hh & ->)]]]];
      try exact Hok.
    pose proof (handle_request_constructed (PDict d) self w Hok) as H.
    rewrite Hh in H. exact H. }
  destruct (iteration rt line self w) as [[[r s1] w1] t1].
  unfold self_after in Hturn. simpl in Hturn.
  destruct r as [[|] | e]; try exact Hturn.
  specialize (IH s1 w1 Hturn).
  destruct (for_lines rt rest s1 w1) as [[[r2 s2] w2] t2]. exact IH.
Qed.

(** At the end of every run of the program, a held model is one the
    constructor returned for the recorded name, and the library is
    available. *)
Theorem held_model_comes_from_the_constructor stdin w :
  let self := self_after (main rt stdin w) in
  forall m,
    model self = Some m ->
    SENTENCE_TRANSFORMERS_AVAILABLE rt = true /\
    exists w1 w2,
      SentenceTransformer rt (current_model_name self) w1 = (Ok m, w2).
Proof.
  cbv zeta. unfold main.
  destruct (run_cases stdin init w) as (tail & Hrun & _).
  rewrite Hrun. unfold self_after at 1 3. simpl.
  intros m Hm. split.
  - destruct (for_lines rt stdin init w) as [[[r s1] w1] t1] eqn:Hloop.
    apply (held_model_available rt s1 m); [| exact Hm].
    apply (registry_ok_for_lines rt stdin init w r s1 w1 t1);
      [apply registry_ok_init | exact Hloop].
  - apply (for_lines_constructed stdin init w); [| exact Hm].
    intros m' Hnone. discriminate Hnone.
Qed.

End Session.

(** * The further properties at work in the concrete runtime *)

Lemma non_dict_line_ends_the_session_witness :
  run Demo.rt ["[]"%string; Demo.ping_line] Demo.loaded 1
  = (Ok tt, Demo.loaded, 1,
     [Stderr "[INFO] Embedding server started";
      Stdin "[]";
      Stderr ("[ERROR] Server error: '" ++ type_name (PList [])
              ++ "' object has no attribute 'get'");
      Stderr "[INFO] Embedding server stopped"]).
Proof.
  apply (non_dict_line_ends_the_session Demo.rt "[]" [Demo.ping_line]
           (PList []) Demo.loaded 1).
  - vm_compute. discriminate.
  - reflexivity.
  - intros d. discriminate.
Defined.

Lemma embed_request_without_library_witness :
  handle_request Demo.rt_unavailable (PDict Demo.embed_request) Demo.start 0
  = (Ok (failure_response Demo.rt_unavailable (PStr "1")
           (Exn RuntimeError "sentence-transformers not available")),
     Demo.start, 0, []).
Proof.
  apply (embed_request_without_library Demo.rt_unavailable Demo.embed_request
           Demo.start 0); reflexivity.
Defined.

Lemma embed_request_load_failure_witness :
  handle_request Demo.rt (PDict Demo.missing_request) Demo.loaded 1
  = (Ok (failure_response Demo.rt (PStr "5")
           (Exn RuntimeError "Failed to load model: no-such-model")),
     Demo.loaded, 1,
     [CallSentenceTransformer (PStr "no-such-model");
      Stderr "[ERROR] Model loading failed: no-such-model is not a valid model identifier"]).
Proof.
  apply (embed_request_load_failure Demo.rt Demo.missing_request Demo.loaded 1
           (Exn (OtherException "OSError")
              "no-such-model is not a valid model identifier") 1);
    reflexivity.
Defined.

Lemma encode_failure_keeps_the_new_model_witness :
  handle_request Demo.rt (PDict Demo.text_request) Demo.loaded 1
  = (Ok (failure_response Demo.rt (PStr "4")
           (Exn TypeError "texts must be a list")),
     {| model := Some "all-MiniLM-L6-v2"%string;
        current_model_name := PStr "all-MiniLM-L6-v2" |}, 2,
     [CallSentenceTransformer (PStr "all-MiniLM-L6-v2");
      CallEncode "all-MiniLM-L6-v2"%string (PStr "hello")]).
Proof.
  apply (encode_failure_keeps_the_new_model Demo.rt Demo.text_request
           Demo.loaded 1 "all-MiniLM-L6-v2"%string 2
           (Exn TypeError "texts must be a list") 2);
    reflexivity.
Defined.

Lemma second_embed_request_reuses_the_model_witness :
  let first := handle_request Demo.rt (PDict Demo.embed_request) Demo.start 0 in
  let second :=
    handle_request Demo.rt (PDict Demo.embed_request)
      (self_after first) (world_after first) in
  trace_of first
  = [CallSentenceTransformer (PStr "m");
     CallEncode "m"%string (PList [PStr "hello"; PStr "world"])] /\
  self_after first = Demo.loaded /\
  trace_of second
  = [CallEncode "m"%string (PList [PStr "hello"; PStr "world"])] /\
  self_after second = self_after first.
Proof.
  apply (second_embed_request_reuses_the_model Demo.rt Demo.embed_request
           Demo.embed_request "m" Demo.start 0 "m"%string 1);
    reflexivity.
Defined.

Lemma default_model_only_when_absent_witness :
  (exists t,
      trace_of (handle_request Demo.rt (PDict Demo.text_request) Demo.start 0)
      = CallSentenceTransformer (PStr "all-MiniLM-L6-v2") :: t) /\
  (exists t,
      trace_of (handle_request Demo.rt (PDict Demo.null_model_request)
                  Demo.start 0)
      = CallSentenceTransformer PNone :: t).
Proof.
  split.
  - apply (default_model_only_when_absent Demo.rt Demo.text_request
             Demo.start 0); reflexivity.
  - apply (default_model_only_when_absent Demo.rt Demo.null_model_request
             Demo.start 0); reflexivity.
Defined.

Lemma loop_breaks_only_on_shutdown_witness :
  exists before line rest d t0,
    [Demo.ping_line; Demo.shutdown_line; Demo.ping_line]
    = (before ++ line :: rest)%list /\
    json_loads Demo.rt (strip line) = Ok (PDict d) /\
    action_of d = PStr "shutdown" /\
    trace_of (for_lines Demo.rt
                [Demo.ping_line; Demo.shutdown_line; Demo.ping_line]
                Demo.start 0)
    = (t0 ++ [Stdin line; Stdout (shutdown_response (id_of d))])%list.
Proof.
  apply (loop_breaks_only_on_shutdown Demo.rt
           [Demo.ping_line; Demo.shutdown_line; Demo.ping_line] Demo.start 0).
  reflexivity.
Defined.

Lemma session_without_embed_leaves_the_registry_witness :
  let loop :=
    for_lines Demo.rt
      [Demo.ping_line; Demo.broken_line; Demo.shutdown_line] Demo.loaded 1 in
  self_after loop = Demo.loaded /\ world_after loop = 1 /\
  calls_of (trace_of loop) = [].
Proof.
  apply (session_without_embed_leaves_the_registry Demo.rt
           [Demo.ping_line; Demo.broken_line; Demo.shutdown_line]
           Demo.loaded 1).
  intros line d [<- | [<- | [<- | []]]] Hl Ha;
    vm_compute in Hl; try discriminate Hl;
    injection Hl as <-; discriminate Ha.
Defined.

Lemma white_line_is_skipped_witness :
  for_lines Demo.rt
    [String (ascii_of_nat 32) (String (ascii_of_nat 9) EmptyString);
     Demo.ping_line] Demo.start 0
  = (let '(r, self', w', t) := for_lines Demo.rt [Demo.ping_line] Demo.start 0 in
     (r, self', w',
      Stdin (String (ascii_of_nat 32) (String (ascii_of_nat 9) EmptyString))
      :: t)).
Proof.
  apply (white_line_is_skipped Demo.rt
           (String (ascii_of_nat 32) (String (ascii_of_nat 9) EmptyString))
           [Demo.ping_line] Demo.start 0).
  reflexivity.
Defined.

Lemma other_decoder_exception_ends_the_session_witness :
  run Demo.rt_limited [Demo.deep_line; Demo.ping_line] Demo.start 0
  = (Ok tt, Demo.start, 0,
     [Stderr "[INFO] Embedding server started";
      Stdin Demo.deep_line;
      Stderr "[ERROR] Server error: maximum recursion depth exceeded while decoding a JSON array from a unicode string";
      Stderr "[INFO] Embedding server stopped"]).
Proof.
  apply (other_decoder_exception_ends_the_session Demo.rt_limited
           Demo.deep_line [Demo.ping_line] Demo.start 0
           (Exn (OtherException "RecursionError")
              "maximum recursion depth exceeded while decoding a JSON array from a unicode string")).
  - vm_compute. discriminate.
  - reflexivity.
  - reflexivity.
Defined.

Lemma held_model_comes_from_the_constructor_witness :
  self_after (main Demo.rt_limited [Demo.embed_line] 0) = Demo.loaded /\
  SENTENCE_TRANSFORMERS_AVAILABLE Demo.rt_limited = true /\
  exists w1 w2,
    SentenceTransformer Demo.rt_limited
      (current_model_name (self_after (main Demo.rt_limited [Demo.embed_line] 0)))
      w1
    = (Ok "m"%string, w2).
Proof.
  split; [reflexivity |].
  apply (held_model_comes_from_the_constructor Demo.rt_limited
           [Demo.embed_line] 0 "m"%string).
  reflexivity.
Defined.

(** A whole session: an embedding, a broken line, a blank line, a second
    embedding that reuses the model, and the shutdown; the line after it
    is not read. *)
Example a_session :
  main Demo.rt_limited
    [Demo.embed_line; Demo.broken_line; " "%string; Demo.embed_line;
     Demo.shutdown_line; Demo.ping_line] 0
  = (Ok tt, Demo.loaded, 1,
     [Stderr "[INFO] Embedding server started";
      Stdin Demo.embed_line;
      CallSentenceTransformer (PStr "m");
      CallEncode "m"%string (PList [PStr "hello"; PStr "world"]);
      Stdout (embed_response (PStr "1")
                (PList [PList (Demo.vector_of (PStr "hello"));
                        PList (Demo.vector_of (PStr "world"))])
                (PInt 4) (PInt 2));
      Stdin Demo.broken_line;
      Stderr ("[ERROR] Invalid JSON: " ++ exn_str Demo.broken_error);
      Stdout (invalid_json_response Demo.broken_error);
      Stdin " ";
      Stdin Demo.embed_line;
      CallEncode "m"%string (PList [PStr "hello"; PStr "world"]);
      Stdout (embed_response (PStr "1")
                (PList [PList (Demo.vector_of (PStr "hello"));
                        PList (Demo.vector_of (PStr "world"))])
                (PInt 4) (PInt 2));
      Stdin Demo.shutdown_line;
      Stdout (shutdown_response (PStr "2"));
      Stderr "[INFO] Embedding server stopped"]).
Proof. reflexivity. Qed.
